(** * The i3 workspace delegate of the xfce4 i3-workspaces panel plugin

    A shallow embedding of [panel-plugin/i3wm-delegate.c]: the ordering of
    workspace names, the workspace list kept by the delegate, the callback
    slots and the handlers of the workspace events.

    Conventions of the embedding.
    - A C string is a [string]: the bytes before the terminating NUL.
    - [long] is 64 bits wide and [gint] 32 bits wide (LP64); a conversion
      from [long] to [gint] keeps the low 32 bits.
    - A [GSList] is a [list]; a pointer to one of its nodes is the position
      of the node.  Every node of the workspace list holds a workspace
      allocated by its own [create_workspace] call, so removing "the node
      holding this pointer" is removing the node at that position.
    - A pointer that was never assigned is [None]; using it is undefined
      behaviour, the result [Undefined].
    - The callbacks are code of the panel; a call is recorded as an event
      carrying the function, the workspace as it is at the time of the call
      and the user data. *)

From Stdlib Require Import ZArith Lia Ascii String.
From stdpp Require Import base option list strings sorting.

Local Open Scope string_scope.
Local Open Scope list_scope.
Local Open Scope Z_scope.

(** ** The C library functions used by the ordering *)

Definition LONG_MAX : Z := 2 ^ 63 - 1.
Definition LONG_MIN : Z := - 2 ^ 63.

(** Conversion of a [long] to the 32-bit [gint]. *)
Definition to_gint (z : Z) : Z := (z + 2 ^ 31) mod 2 ^ 32 - 2 ^ 31.

Definition byte_val (c : ascii) : Z := Z.of_N (N_of_ascii c).

(** [isspace] in the C locale: space, and the controls 9 to 13. *)
Definition isspace (c : ascii) : bool :=
  (byte_val c =? 32) || ((9 <=? byte_val c) && (byte_val c <=? 13)).

Definition isdigit (c : ascii) : bool :=
  (48 <=? byte_val c) && (byte_val c <=? 57).

(** The white space [strtol] skips: what is left, and how many bytes went. *)
Fixpoint skip_space (s : string) : string * nat :=
  match s with
  | String c s' =>
      if isspace c then let '(r, k) := skip_space s' in (r, S k) else (s, O)
  | EmptyString => (s, O)
  end.

(** The optional sign: whether it is a minus, what is left, bytes taken. *)
Definition take_sign (s : string) : bool * string * nat :=
  match s with
  | String "-" s' => (true, s', 1%nat)
  | String "+" s' => (false, s', 1%nat)
  | _ => (false, s, O)
  end.

(** The longest run of decimal digits: its value and its length. *)
Fixpoint take_digits (acc : Z) (s : string) : Z * nat :=
  match s with
  | String c s' =>
      if isdigit c
      then let '(v, k) := take_digits (10 * acc + (byte_val c - 48)) s' in
           (v, S k)
      else (acc, O)
  | EmptyString => (acc, O)
  end.

Definition clamp_long (z : Z) : Z :=
  if z <? LONG_MIN then LONG_MIN
  else if LONG_MAX <? z then LONG_MAX
  else z.

(** [strtol (name, &endptr, 10)]: the value returned and the offset of
    [endptr] from [name].  With no digit nothing is converted: the value is 0
    and [endptr] is [name].  A value out of range is clamped. *)
Definition strtol (name : string) : Z * nat :=
  let '(s1, k1) := skip_space name in
  let '(neg, s2, k2) := take_sign s1 in
  let '(v, k3) := take_digits 0 s2 in
  match k3 with
  | O => (0, O)
  | _ => (clamp_long (if neg then - v else v), (k1 + k2 + k3)%nat)
  end.

(** [strcmp]: unsigned bytes are compared up to the first difference.  C
    fixes only the sign of the result; the model returns -1, 0 or 1. *)
Fixpoint strcmp (a b : string) : Z :=
  match a, b with
  | EmptyString, EmptyString => 0
  | EmptyString, String _ _ => -1
  | String _ _, EmptyString => 1
  | String c a', String d b' =>
      if byte_val c <? byte_val d then -1
      else if byte_val d <? byte_val c then 1
      else strcmp a' b'
  end.

(** ** The ordering of workspace names *)

Definition ws_name_to_number (name : string) : Z :=
  let '(parsed_num, endptr) := strtol name in
  if (parsed_num =? LONG_MIN) || (parsed_num =? LONG_MAX)
     || (parsed_num <? 0) || Nat.eqb endptr 0
  then -1
  else parsed_num.

Definition workspace_name_cmp (a b : string) : Z :=
  let na := ws_name_to_number a in
  let nb := ws_name_to_number b in
  if (na =? -1) || (nb =? -1)
  then
    if (na =? -1) && (nb =? -1)
    then strcmp b a
    else if na =? -1 then -1 else 1
  else to_gint (nb - na).

(** The two classes of names: a name is numeric when [ws_name_to_number]
    gives its number, named when it gives -1. *)
Definition is_numeric (name : string) : bool :=
  negb (ws_name_to_number name =? -1).

Definition is_named (name : string) : bool := ws_name_to_number name =? -1.

(** A [GCompareFunc] places its first argument before its second when the
    result is negative. *)
Definition sorts_before (a b : string) : Prop := workspace_name_cmp a b < 0.

(** ** The GLib list functions used by the delegate *)

Section GSList.
Context {A : Type}.

(** [g_slist_find_custom]: the first node whose data [func] maps to 0
    against the key; the node is given by its position and its data, and
    [None] stands for the NULL result. *)
Fixpoint g_slist_find_custom {B : Type}
    (l : list A) (key : B) (func : A -> B -> Z) : option (nat * A) :=
  match l with
  | [] => None
  | x :: l' =>
      if func x key =? 0 then Some (O, x)
      else prod_map S id <$> g_slist_find_custom l' key func
  end.

(** [g_slist_insert_sorted]: the new node goes before the first node the
    data does not compare greater than, or to the end. *)
Fixpoint g_slist_insert_sorted
    (l : list A) (x : A) (func : A -> A -> Z) : list A :=
  match l with
  | [] => [x]
  | y :: l' =>
      if 0 <? func x y then y :: g_slist_insert_sorted l' x func
      else x :: y :: l'
  end.

(** The merge of [g_slist_sort]: the head of the first list is taken
    unless it compares greater than the head of the second. *)
Fixpoint g_slist_sort_merge
    (func : A -> A -> Z) (l1 : list A) : list A -> list A :=
  fix merge_aux (l2 : list A) : list A :=
    match l1, l2 with
    | [], _ => l2
    | _, [] => l1
    | x :: l1', y :: l2' =>
        if func x y <=? 0 then x :: g_slist_sort_merge func l1' l2
        else y :: merge_aux l2'
    end.

(** The recursion of [g_slist_sort]: a list of two or more nodes is cut
    after its first [length / 2] nodes and the sorted halves are merged.
    The recursion is on a bound of the length of the list. *)
Fixpoint g_slist_sort_real
    (bound : nat) (func : A -> A -> Z) (l : list A) : list A :=
  match l with
  | [] | [_] => l
  | _ =>
      match bound with
      | O => l
      | S bound' =>
          let half := (length l / 2)%nat in
          g_slist_sort_merge func
            (g_slist_sort_real bound' func (take half l))
            (g_slist_sort_real bound' func (drop half l))
      end
  end.

Definition g_slist_sort (l : list A) (func : A -> A -> Z) : list A :=
  g_slist_sort_real (length l) func l.

Definition g_slist_prepend (l : list A) (x : A) : list A := x :: l.

Definition g_slist_reverse (l : list A) : list A := rev l.

(** [g_slist_remove] unlinks the first node holding the given pointer;
    with the pointer known by the position of its node, that node goes. *)
Definition g_slist_remove (l : list A) (pos : nat) : list A := delete pos l.
End GSList.

(** ** Workspaces, replies and the delegate *)

Record i3workspace := {
  num : Z;
  name : string;
  focused : bool;
  urgent : bool;
  output : string
}.

(** The fields of a workspace reply of i3ipc-glib the delegate reads. *)
Record i3ipcWorkspaceReply := {
  reply_num : Z;
  reply_name : string;
  reply_focused : bool;
  reply_urgent : bool;
  reply_output : string
}.

Definition gpointer := Z.
Definition NULL : gpointer := 0.

(** A callback slot: the function (NULL when there is none) and its data. *)
Record i3wmCallback := {
  function : gpointer;
  data : gpointer
}.

Record GError := {
  code : Z;
  message : string
}.

Record i3windowManager := {
  wlist : list i3workspace;
  on_workspace_created : i3wmCallback;
  on_workspace_destroyed : i3wmCallback;
  on_workspace_blurred : i3wmCallback;
  on_workspace_focused : i3wmCallback;
  on_workspace_urgent : i3wmCallback;
  on_workspace_renamed : i3wmCallback;
  on_ipc_shutdown : gpointer;
  on_ipc_shutdown_data : gpointer
}.

(** A call of a workspace callback, or of the shutdown callback. *)
Inductive event :=
  | Call (f : gpointer) (w : i3workspace) (d : gpointer)
  | CallShutdown (f : gpointer) (d : gpointer).

(** What a handler does: it ends in a new delegate and the calls it made,
    or it runs into undefined behaviour. *)
Inductive outcome :=
  | Done (i3wm : i3windowManager) (calls : list event)
  | Undefined.

(** What [i3ipc_connection_get_workspaces] meets on the connection. *)
Inductive fetched :=
  | Fetched (replies : list i3ipcWorkspaceReply)
  | FetchFailed (e : GError).

(** [i3ipc_connection_get_workspaces]: the list returned and the error
    set.  On an error the list returned is NULL, the empty list. *)
Definition i3ipc_connection_get_workspaces (r : fetched)
    : list i3ipcWorkspaceReply * option GError :=
  match r with
  | Fetched replies => (replies, None)
  | FetchFailed e => ([], Some e)
  end.

Definition with_wlist (i3wm : i3windowManager) (l : list i3workspace)
    : i3windowManager :=
  {| wlist := l;
     on_workspace_created := on_workspace_created i3wm;
     on_workspace_destroyed := on_workspace_destroyed i3wm;
     on_workspace_blurred := on_workspace_blurred i3wm;
     on_workspace_focused := on_workspace_focused i3wm;
     on_workspace_urgent := on_workspace_urgent i3wm;
     on_workspace_renamed := on_workspace_renamed i3wm;
     on_ipc_shutdown := on_ipc_shutdown i3wm;
     on_ipc_shutdown_data := on_ipc_shutdown_data i3wm |}.

Definition with_focused (w : i3workspace) (b : bool) : i3workspace :=
  {| num := num w; name := name w; focused := b;
     urgent := urgent w; output := output w |}.

Definition with_urgent (w : i3workspace) (b : bool) : i3workspace :=
  {| num := num w; name := name w; focused := focused w;
     urgent := b; output := output w |}.

Definition with_function (c : i3wmCallback) (f : gpointer) : i3wmCallback :=
  {| function := f; data := data c |}.

Definition with_data (c : i3wmCallback) (d : gpointer) : i3wmCallback :=
  {| function := function c; data := d |}.

(** ** The public functions *)

Definition i3wm_get_workspaces (i3wm : i3windowManager) : list i3workspace :=
  wlist i3wm.

Definition i3wm_workspace_cmp (a b : i3workspace) : Z :=
  workspace_name_cmp (name a) (name b).

Definition i3wm_set_on_workspace_created
    (i3wm : i3windowManager) (callback d : gpointer) : i3windowManager :=
  {| wlist := wlist i3wm;
     on_workspace_created := {| function := callback; data := d |};
     on_workspace_destroyed := on_workspace_destroyed i3wm;
     on_workspace_blurred := on_workspace_blurred i3wm;
     on_workspace_focused := on_workspace_focused i3wm;
     on_workspace_urgent := on_workspace_urgent i3wm;
     on_workspace_renamed := on_workspace_renamed i3wm;
     on_ipc_shutdown := on_ipc_shutdown i3wm;
     on_ipc_shutdown_data := on_ipc_shutdown_data i3wm |}.

Definition i3wm_set_on_workspace_destroyed
    (i3wm : i3windowManager) (callback d : gpointer) : i3windowManager :=
  {| wlist := wlist i3wm;
     on_workspace_created := on_workspace_created i3wm;
     on_workspace_destroyed := {| function := callback; data := d |};
     on_workspace_blurred := on_workspace_blurred i3wm;
     on_workspace_focused := on_workspace_focused i3wm;
     on_workspace_urgent := on_workspace_urgent i3wm;
     on_workspace_renamed := on_workspace_renamed i3wm;
     on_ipc_shutdown := on_ipc_shutdown i3wm;
     on_ipc_shutdown_data := on_ipc_shutdown_data i3wm |}.

(** The function goes to the blurred slot, the data to the focused slot. *)
Definition i3wm_set_on_workspace_blurred
    (i3wm : i3windowManager) (callback d : gpointer) : i3windowManager :=
  {| wlist := wlist i3wm;
     on_workspace_created := on_workspace_created i3wm;
     on_workspace_destroyed := on_workspace_destroyed i3wm;
     on_workspace_blurred := with_function (on_workspace_blurred i3wm) callback;
     on_workspace_focused := with_data (on_workspace_focused i3wm) d;
     on_workspace_urgent := on_workspace_urgent i3wm;
     on_workspace_renamed := on_workspace_renamed i3wm;
     on_ipc_shutdown := on_ipc_shutdown i3wm;
     on_ipc_shutdown_data := on_ipc_shutdown_data i3wm |}.

(** The function goes to the focused slot, the data to the blurred slot. *)
Definition i3wm_set_on_workspace_focused
    (i3wm : i3windowManager) (callback d : gpointer) : i3windowManager :=
  {| wlist := wlist i3wm;
     on_workspace_created := on_workspace_created i3wm;
     on_workspace_destroyed := on_workspace_destroyed i3wm;
     on_workspace_blurred := with_data (on_workspace_blurred i3wm) d;
     on_workspace_focused := with_function (on_workspace_focused i3wm) callback;
     on_workspace_urgent := on_workspace_urgent i3wm;
     on_workspace_renamed := on_workspace_renamed i3wm;
     on_ipc_shutdown := on_ipc_shutdown i3wm;
     on_ipc_shutdown_data := on_ipc_shutdown_data i3wm |}.

Definition i3wm_set_on_workspace_urgent
    (i3wm : i3windowManager) (callback d : gpointer) : i3windowManager :=
  {| wlist := wlist i3wm;
     on_workspace_created := on_workspace_created i3wm;
     on_workspace_destroyed := on_workspace_destroyed i3wm;
     on_workspace_blurred := on_workspace_blurred i3wm;
     on_workspace_focused := on_workspace_focused i3wm;
     on_workspace_urgent := {| function := callback; data := d |};
     on_workspace_renamed := on_workspace_renamed i3wm;
     on_ipc_shutdown := on_ipc_shutdown i3wm;
     on_ipc_shutdown_data := on_ipc_shutdown_data i3wm |}.

Definition i3wm_set_on_workspace_renamed
    (i3wm : i3windowManager) (callback d : gpointer) : i3windowManager :=
  {| wlist := wlist i3wm;
     on_workspace_created := on_workspace_created i3wm;
     on_workspace_destroyed := on_workspace_destroyed i3wm;
     on_workspace_blurred := on_workspace_blurred i3wm;
     on_workspace_focused := on_workspace_focused i3wm;
     on_workspace_urgent := on_workspace_urgent i3wm;
     on_workspace_renamed := {| function := callback; data := d |};
     on_ipc_shutdown := on_ipc_shutdown i3wm;
     on_ipc_shutdown_data := on_ipc_shutdown_data i3wm |}.

Definition i3wm_set_on_ipc_shutdown
    (i3wm : i3windowManager) (callback d : gpointer) : i3windowManager :=
  {| wlist := wlist i3wm;
     on_workspace_created := on_workspace_created i3wm;
     on_workspace_destroyed := on_workspace_destroyed i3wm;
     on_workspace_blurred := on_workspace_blurred i3wm;
     on_workspace_focused := on_workspace_focused i3wm;
     on_workspace_urgent := on_workspace_urgent i3wm;
     on_workspace_renamed := on_workspace_renamed i3wm;
     on_ipc_shutdown := callback;
     on_ipc_shutdown_data := d |}.

(** ** The private functions *)

Definition create_workspace (wreply : i3ipcWorkspaceReply) : i3workspace :=
  {| num := reply_num wreply;
     name := reply_name wreply;
     focused := reply_focused wreply;
     urgent := reply_urgent wreply;
     output := reply_output wreply |}.

Definition workspace_reply_cmp (a b : i3ipcWorkspaceReply) : Z :=
  workspace_name_cmp (reply_name a) (reply_name b).

Definition workspace_reply_str_cmp (w : i3ipcWorkspaceReply) (s : string) : Z :=
  workspace_name_cmp (reply_name w) s.

Definition workspace_str_cmp (w : i3workspace) (s : string) : Z :=
  workspace_name_cmp (name w) s.

(** [init_workspaces]: the delegate it leaves and the error it sets. *)
Definition init_workspaces (i3wm : i3windowManager) (r : fetched)
    : i3windowManager * option GError :=
  match i3ipc_connection_get_workspaces r with
  | (_, Some get_err) => (i3wm, Some get_err)
  | (replies, None) =>
      let prepended :=
        fold_left (fun l wreply => g_slist_prepend l (create_workspace wreply))
                  replies (wlist i3wm) in
      let reversed := g_slist_reverse prepended in
      (with_wlist i3wm (g_slist_sort reversed i3wm_workspace_cmp), None)
  end.

Definition zero_callback : i3wmCallback := {| function := NULL; data := NULL |}.

(** The delegate as [g_new0] and the assignments of [i3wm_construct] leave
    it before the workspaces are read. *)
Definition new_i3wm : i3windowManager :=
  {| wlist := [];
     on_workspace_created := zero_callback;
     on_workspace_destroyed := zero_callback;
     on_workspace_blurred := zero_callback;
     on_workspace_focused := zero_callback;
     on_workspace_urgent := zero_callback;
     on_workspace_renamed := zero_callback;
     on_ipc_shutdown := NULL;
     on_ipc_shutdown_data := NULL |}.

(** [i3wm_construct], given what opening the connection, reading the
    workspaces and subscribing to the events meet. *)
Definition i3wm_construct
    (connect_err : option GError) (r : fetched) (subscribe_err : option GError)
    : GError + i3windowManager :=
  match connect_err with
  | Some e => inl e
  | None =>
      match init_workspaces new_i3wm r with
      | (_, Some e) => inl e
      | (i3wm, None) =>
          match subscribe_err with
          | Some e => inl e
          | None => inr i3wm
          end
      end
  end.

Definition invoke_callback (callback : i3wmCallback) (workspace : i3workspace)
    : list event :=
  if function callback =? NULL then []
  else [Call (function callback) workspace (data callback)].

Definition on_ipc_shutdown_proxy (i3wm : i3windowManager) : list event :=
  if on_ipc_shutdown i3wm =? NULL then []
  else [CallShutdown (on_ipc_shutdown i3wm) (on_ipc_shutdown_data i3wm)].

(** ** The handlers of the workspace events *)

(** How a search loop over a list ends: with the values its variables have
    when it is left ([None] when the body never ran, so that they were never
    assigned), or by reading the data of a NULL node. *)
Inductive loop_exit (A : Type) :=
  | Exit (vars : option A)
  | NullData.
Arguments Exit {A} vars.
Arguments NullData {A}.

Definition g_strcmp0 (a b : string) : Z := strcmp a b.

Definition on_focus_workspace
    (i3wm : i3windowManager) (current old : string) : outcome :=
  let blurredName := old in
  let focusedName := current in
  let '(l, calls) :=
    match g_slist_find_custom (wlist i3wm) blurredName workspace_str_cmp with
    | Some (i, w) =>
        let wblurred := with_focused w false in
        (<[i := wblurred]> (wlist i3wm),
         invoke_callback (on_workspace_blurred i3wm) wblurred)
    | None => (wlist i3wm, [])
    end in
  match g_slist_find_custom l focusedName workspace_str_cmp with
  | None => Undefined
  | Some (j, w) =>
      let wfocused := with_focused w true in
      Done (with_wlist i3wm (<[j := wfocused]> l))
           (calls ++ invoke_callback (on_workspace_focused i3wm) wfocused)
  end.

(** The loop of [on_init_workspace]: [wreply] when the loop is left. *)
Fixpoint on_init_workspace_loop
    (ours : list i3workspace) (witem : list i3ipcWorkspaceReply)
    (wreply : option i3ipcWorkspaceReply) : option i3ipcWorkspaceReply :=
  match witem with
  | [] => wreply
  | w :: next =>
      match g_slist_find_custom ours (reply_name w) workspace_str_cmp with
      | None => Some w
      | Some _ => on_init_workspace_loop ours next (Some w)
      end
  end.

Definition on_init_workspace (i3wm : i3windowManager) (r : fetched) : outcome :=
  let replies := fst (i3ipc_connection_get_workspaces r) in
  match on_init_workspace_loop (wlist i3wm) replies None with
  | None => Undefined
  | Some wreply =>
      let workspace := create_workspace wreply in
      Done (with_wlist i3wm
              (g_slist_insert_sorted (wlist i3wm) workspace i3wm_workspace_cmp))
           (invoke_callback (on_workspace_created i3wm) workspace)
  end.

(** The loop of [on_empty_workspace]: [workspace] when the loop is left, with
    the position of its node. *)
Fixpoint on_empty_workspace_loop
    (replies : list i3ipcWorkspaceReply) (witem : list i3workspace) (pos : nat)
    (workspace : option (nat * i3workspace)) : option (nat * i3workspace) :=
  match witem with
  | [] => workspace
  | w :: next =>
      match g_slist_find_custom replies (name w) workspace_reply_str_cmp with
      | None => Some (pos, w)
      | Some _ => on_empty_workspace_loop replies next (S pos) (Some (pos, w))
      end
  end.

Definition on_empty_workspace (i3wm : i3windowManager) (r : fetched) : outcome :=
  let replies := fst (i3ipc_connection_get_workspaces r) in
  match on_empty_workspace_loop replies (wlist i3wm) O None with
  | None => Undefined
  | Some (pos, workspace) =>
      Done (with_wlist i3wm (g_slist_remove (wlist i3wm) pos))
           (invoke_callback (on_workspace_destroyed i3wm) workspace)
  end.

(** The loop of [on_urgent_workspace]: [wtheir] and [wour] (with the position
    of its node) when the loop is left. *)
Fixpoint on_urgent_workspace_loop
    (ours : list i3workspace) (witem_their : list i3ipcWorkspaceReply)
    (vars : option (i3ipcWorkspaceReply * (nat * i3workspace)))
    : loop_exit (i3ipcWorkspaceReply * (nat * i3workspace)) :=
  match witem_their with
  | [] => Exit vars
  | wtheir :: next =>
      match g_slist_find_custom ours (reply_name wtheir) workspace_str_cmp with
      | None => NullData
      | Some (pos, wour) =>
          if negb (Bool.eqb (reply_urgent wtheir) (urgent wour))
          then Exit (Some (wtheir, (pos, wour)))
          else on_urgent_workspace_loop ours next (Some (wtheir, (pos, wour)))
      end
  end.

Definition on_urgent_workspace (i3wm : i3windowManager) (r : fetched) : outcome :=
  let replies := fst (i3ipc_connection_get_workspaces r) in
  match on_urgent_workspace_loop (wlist i3wm) replies None with
  | NullData | Exit None => Undefined
  | Exit (Some (wtheir, (pos, w))) =>
      let wour := with_urgent w (reply_urgent wtheir) in
      Done (with_wlist i3wm (<[pos := wour]> (wlist i3wm)))
           (invoke_callback (on_workspace_urgent i3wm) wour)
  end.

(** The loop of [on_move_workspace]: [wtheir] and [wour] (with the position
    of its node) when the loop is left. *)
Fixpoint on_move_workspace_loop
    (ours : list i3workspace) (witem : list i3ipcWorkspaceReply)
    (vars : option (i3ipcWorkspaceReply * (nat * i3workspace)))
    : loop_exit (i3ipcWorkspaceReply * (nat * i3workspace)) :=
  match witem with
  | [] => Exit vars
  | wtheir :: next =>
      match g_slist_find_custom ours (reply_name wtheir) workspace_str_cmp with
      | None => NullData
      | Some (pos, wour) =>
          if negb (g_strcmp0 (reply_output wtheir) (output wour) =? 0)
          then Exit (Some (wtheir, (pos, wour)))
          else on_move_workspace_loop ours next (Some (wtheir, (pos, wour)))
      end
  end.

Definition on_move_workspace (i3wm : i3windowManager) (r : fetched) : outcome :=
  let replies := fst (i3ipc_connection_get_workspaces r) in
  match on_move_workspace_loop (wlist i3wm) replies None with
  | NullData | Exit None => Undefined
  | Exit (Some (wtheir, (pos, wour))) =>
      let removed := g_slist_remove (wlist i3wm) pos in
      let calls1 := invoke_callback (on_workspace_destroyed i3wm) wour in
      let wour' := create_workspace wtheir in
      Done (with_wlist i3wm
              (g_slist_insert_sorted removed wour' i3wm_workspace_cmp))
           (calls1 ++ invoke_callback (on_workspace_created i3wm) wour')
  end.

(** [on_rename_workspace] runs the init handler and then the empty handler,
    each with a fetch of its own. *)
Definition on_rename_workspace
    (i3wm : i3windowManager) (r1 r2 : fetched) : outcome :=
  match on_init_workspace i3wm r1 with
  | Undefined => Undefined
  | Done i3wm1 calls1 =>
      match on_empty_workspace i3wm1 r2 with
      | Undefined => Undefined
      | Done i3wm2 calls2 => Done i3wm2 (calls1 ++ calls2)
      end
  end.

(** [strncmp], with the sign convention of [strcmp] above. *)
Fixpoint strncmp (a b : string) (n : nat) : Z :=
  match n with
  | O => 0
  | S n' =>
      match a, b with
      | EmptyString, EmptyString => 0
      | EmptyString, String _ _ => -1
      | String _ _, EmptyString => 1
      | String c a', String d b' =>
          if byte_val c <? byte_val d then -1
          else if byte_val d <? byte_val c then 1
          else strncmp a' b' n'
      end
  end.

(** [on_workspace_event]: the change of the event, the names of its current
    and old containers, and what the fetches of the handler meet (the second
    one is used by a rename only). *)
Definition on_workspace_event
    (i3wm : i3windowManager) (change current old : string) (r1 r2 : fetched)
    : outcome :=
  if strncmp change "focus" 5 =? 0 then on_focus_workspace i3wm current old
  else if strncmp change "init" 5 =? 0 then on_init_workspace i3wm r1
  else if strncmp change "empty" 5 =? 0 then on_empty_workspace i3wm r1
  else if strncmp change "urgent" 6 =? 0 then on_urgent_workspace i3wm r1
  else if strncmp change "rename" 6 =? 0 then on_rename_workspace i3wm r1 r2
  else if strncmp change "move" 4 =? 0 then on_move_workspace i3wm r1
  else Done i3wm [].

(** ** The order of the workspace list *)

(** What the list functions take for "not after". *)
Definition not_after {A : Type} (func : A -> A -> Z) (a b : A) : Prop :=
  func a b <= 0.

(** The workspace list is in order when no workspace compares greater than
    the one that follows it. *)
Fixpoint wlist_sorted (l : list i3workspace) : bool :=
  match l with
  | [] => true
  | x :: l' =>
      match l' with
      | [] => true
      | y :: _ => (i3wm_workspace_cmp x y <=? 0) && wlist_sorted l'
      end
  end.

(** A name whose number, if it has one, is below 2^31: the difference of
    two such numbers is not changed by the conversion to [gint]. *)
Definition fits_gint (s : string) : Prop := ws_name_to_number s < 2 ^ 31.

Definition wlist_fits (l : list i3workspace) : Prop :=
  Forall (fun w => fits_gint (name w)) l.

Definition fetched_fits (r : fetched) : Prop :=
  Forall (fun t => fits_gint (reply_name t))
         (fst (i3ipc_connection_get_workspaces r)).

(** The delegate has its list in order, with names whose numbers fit a
    [gint]. *)
Definition in_order (i3wm : i3windowManager) : Prop :=
  wlist_sorted (wlist i3wm) = true /\ wlist_fits (wlist i3wm).

(** ** Going to a workspace *)

(** What [i3ipc_connection_message] meets on the connection. *)
Inductive sent :=
  | Replied (reply : string)
  | SendFailed (e : GError).

(** [sprintf (command_str, "workspace %s", name)] into a buffer of
    [cmd_size] bytes: the text written, or [None] when the text and its
    terminator do not fit. *)
Definition sprintf_workspace (cmd_size : nat) (n : string) : option string :=
  let text := String.append "workspace " n in
  if (String.length text + 1 <=? cmd_size)%nat then Some text else None.

(** [i3wm_goto_workspace]: the command sent on the connection and the error
    set, or [None] when the command overflows its buffer. *)
Definition i3wm_goto_workspace
    (i3wm : i3windowManager) (workspace : i3workspace)
    (connection : string -> sent) : option (string * option GError) :=
  let cmd_size := (13 + String.length (name workspace))%nat in
  match sprintf_workspace cmd_size (name workspace) with
  | None => None
  | Some command_str =>
      match connection command_str with
      | SendFailed ipc_err => Some (command_str, Some ipc_err)
      | Replied _ => Some (command_str, None)
      end
  end.

(** ** Names written in decimal digits *)

Definition digit_char (d : nat) : ascii := ascii_of_nat (48 + d).

Fixpoint digits_string (ds : list nat) : string :=
  match ds with
  | [] => EmptyString
  | d :: ds' => String (digit_char d) (digits_string ds')
  end.

Definition digits_value (ds : list nat) : Z :=
  fold_left (fun acc d => 10 * acc + Z.of_nat d) ds 0.

(** A text that does not go on with a digit. *)
Definition no_digit_ahead (s : string) : Prop :=
  match s with
  | EmptyString => True
  | String c _ => isdigit c = false
  end.

(** ** Outcomes *)

Definition outcome_map (f : i3windowManager -> i3windowManager) (o : outcome)
    : outcome :=
  match o with
  | Done i3wm calls => Done (f i3wm) calls
  | Undefined => Undefined
  end.

(** ** Names of the list and names of an event *)

(** The workspaces of the list whose names compare equal to a name are
    spelled like that name. *)
Definition spelled_alike (l : list i3workspace) (s : string) : Prop :=
  forall w, w ∈ l -> workspace_name_cmp (name w) s = 0 -> name w = s.

(** ** Sample replies and delegates *)

Definition sample_reply (n : string) (f u : bool) (o : string)
    : i3ipcWorkspaceReply :=
  {| reply_num := ws_name_to_number n;
     reply_name := n;
     reply_focused := f;
     reply_urgent := u;
     reply_output := o |}.

Definition sample_workspace (n : string) (f u : bool) (o : string)
    : i3workspace :=
  create_workspace (sample_reply n f u o).

(** The delegate built from a snapshot, with its five workspace callbacks
    set: created, destroyed, blurred, focused and urgent, in that order. *)
Definition sample_i3wm (replies : list i3ipcWorkspaceReply) : i3windowManager :=
  let i3wm := fst (init_workspaces new_i3wm (Fetched replies)) in
  let i3wm := i3wm_set_on_workspace_created i3wm 101 11 in
  let i3wm := i3wm_set_on_workspace_destroyed i3wm 102 12 in
  let i3wm := i3wm_set_on_workspace_blurred i3wm 103 13 in
  let i3wm := i3wm_set_on_workspace_focused i3wm 104 14 in
  i3wm_set_on_workspace_urgent i3wm 105 15.

(** The workspaces "1" (focused) and "2". *)
Definition focus_i3wm : i3windowManager :=
  sample_i3wm [sample_reply "1" true false "LVDS1";
               sample_reply "2" false false "LVDS1"].

(** The workspaces "1" and "2", both on the output LVDS1. *)
Definition move_i3wm : i3windowManager :=
  sample_i3wm [sample_reply "1" false false "LVDS1";
               sample_reply "2" false false "LVDS1"].

(** A snapshot in which "1" alone has moved, and one in which both have. *)
Definition moved_one : list i3ipcWorkspaceReply :=
  [sample_reply "1" false false "HDMI1"; sample_reply "2" false false "LVDS1"].

Definition moved_both : list i3ipcWorkspaceReply :=
  [sample_reply "2" false false "HDMI2"; sample_reply "1" false false "HDMI1"].

(** The snapshot the workspaces of [move_i3wm] were read from. *)
Definition unchanged : list i3ipcWorkspaceReply :=
  [sample_reply "1" false false "LVDS1"; sample_reply "2" false false "LVDS1"].

(** Three numbered workspaces, two of them 2147483648 apart, and the
    snapshot after the middle one has gone. *)
Definition far_apart : list i3ipcWorkspaceReply :=
  [sample_reply "0" false false "LVDS1";
   sample_reply "2147483648" false false "LVDS1";
   sample_reply "1" false false "LVDS1"].

Definition far_apart_emptied : list i3ipcWorkspaceReply :=
  [sample_reply "0" false false "LVDS1"; sample_reply "1" false false "LVDS1"].

Definition sample_error : GError :=
  {| code := 1; message := "connection closed" |}.

(** Snapshots for the delegate [move_i3wm]: "3" has appeared, "2" has
    gone, "1" has become urgent. *)
Definition appeared : list i3ipcWorkspaceReply :=
  [sample_reply "1" false false "LVDS1"; sample_reply "2" false false "LVDS1";
   sample_reply "3" false false "LVDS1"].

Definition gone : list i3ipcWorkspaceReply :=
  [sample_reply "1" false false "LVDS1"].

Definition became_urgent : list i3ipcWorkspaceReply :=
  [sample_reply "2" false false "LVDS1"; sample_reply "1" false true "LVDS1"].

(** A renamed workspace: "2" is now "web". *)
Definition renamed : list i3ipcWorkspaceReply :=
  [sample_reply "1" false false "LVDS1"; sample_reply "web" false false "LVDS1"].

(** A connection that answers every command, and one that fails. *)
Definition answering (command : string) : sent := Replied "[{}]".

Definition failing (command : string) : sent := SendFailed sample_error.

(** ** Names that do not begin like a number *)

(** A name that is empty or begins with a byte that is no white space, no
    sign and no digit. *)
Definition starts_plain (s : string) : Prop :=
  match s with
  | EmptyString => True
  | String c _ =>
      isspace c = false /\ isdigit c = false /\ c <> "-"%char /\ c <> "+"%char
  end.

(** The workspaces "1" (focused) and "01": two spellings of one number. *)
Definition alike_i3wm : i3windowManager :=
  sample_i3wm [sample_reply "1" true false "LVDS1";
               sample_reply "01" false false "LVDS1"].

(** * Properties *)

(** ** The C library functions *)

Example ws_name_to_number_10 : ws_name_to_number "10" = 10.
Proof. reflexivity. Qed.

Example ws_name_to_number_named : ws_name_to_number "web" = -1.
Proof. reflexivity. Qed.

Example ws_name_to_number_prefix : ws_name_to_number "1:web" = 1.
Proof. reflexivity. Qed.

Example ws_name_to_number_minus : ws_name_to_number "-3" = -1.
Proof. reflexivity. Qed.

Example ws_name_to_number_huge :
  ws_name_to_number "9223372036854775807" = -1.
Proof. reflexivity. Qed.

Lemma byte_val_inj (c d : ascii) : byte_val c = byte_val d -> c = d.
Proof.
  unfold byte_val. intros H. apply N2Z.inj in H.
  rewrite <- (ascii_N_embedding c), <- (ascii_N_embedding d). now f_equal.
Qed.

Lemma strcmp_refl (a : string) : strcmp a a = 0.
Proof.
  induction a as [|c a IH]; simpl; [reflexivity|].
  now rewrite Z.ltb_irrefl.
Qed.

Lemma strcmp_eq (a b : string) : strcmp a b = 0 -> a = b.
Proof.
  revert b. induction a as [|c a IH]; intros [|d b]; simpl; try discriminate.
  - reflexivity.
  - destruct (Z.ltb_spec (byte_val c) (byte_val d)); [discriminate|].
    destruct (Z.ltb_spec (byte_val d) (byte_val c)); [discriminate|].
    intros Heq. f_equal; [apply byte_val_inj; lia | now apply IH].
Qed.

Lemma strcmp_antisym (a b : string) : strcmp b a = - strcmp a b.
Proof.
  revert b. induction a as [|c a IH]; intros [|d b]; simpl; try reflexivity.
  destruct (Z.ltb_spec (byte_val c) (byte_val d)),
           (Z.ltb_spec (byte_val d) (byte_val c)); try reflexivity; try lia.
  apply IH.
Qed.

Lemma strcmp_trans (a b c : string) :
  strcmp a b <= 0 -> strcmp b c <= 0 -> strcmp a c <= 0.
Proof.
  revert b c. induction a as [|x a IH]; intros [|y b] [|z c]; simpl; try lia.
  destruct (Z.ltb_spec (byte_val x) (byte_val y)),
           (Z.ltb_spec (byte_val y) (byte_val x)),
           (Z.ltb_spec (byte_val y) (byte_val z)),
           (Z.ltb_spec (byte_val z) (byte_val y)),
           (Z.ltb_spec (byte_val x) (byte_val z)),
           (Z.ltb_spec (byte_val z) (byte_val x)); try lia.
  apply IH.
Qed.

Lemma to_gint_range (z : Z) : - 2 ^ 31 <= to_gint z < 2 ^ 31.
Proof.
  unfold to_gint.
  pose proof (Z.mod_pos_bound (z + 2 ^ 31) (2 ^ 32) ltac:(lia)). lia.
Qed.

Lemma to_gint_small (z : Z) : - 2 ^ 31 <= z < 2 ^ 31 -> to_gint z = z.
Proof.
  intros H. unfold to_gint. rewrite Z.mod_small; lia.
Qed.

Lemma to_gint_zero_opp (z : Z) : to_gint z = 0 -> to_gint (- z) = 0.
Proof.
  unfold to_gint. intros H.
  assert (Hz : (z + 2 ^ 31) mod 2 ^ 32 = 2 ^ 31) by lia.
  assert (Hd : exists k, z = 2 ^ 32 * k).
  { exists ((z + 2 ^ 31) / 2 ^ 32).
    pose proof (Z.div_mod (z + 2 ^ 31) (2 ^ 32) ltac:(lia)). lia. }
  destruct Hd as [k ->].
  replace (- (2 ^ 32 * k) + 2 ^ 31) with (2 ^ 31 + (- k) * 2 ^ 32) by lia.
  rewrite Z.mod_add by lia. rewrite Z.mod_small; lia.
Qed.

(** ** The ordering of workspace names *)

Lemma clamp_long_range (z : Z) : LONG_MIN <= clamp_long z <= LONG_MAX.
Proof.
  unfold clamp_long, LONG_MIN, LONG_MAX.
  destruct (Z.ltb_spec z (- 2 ^ 63)); [lia|].
  destruct (Z.ltb_spec (2 ^ 63 - 1) z); lia.
Qed.

Lemma strtol_range (s : string) : LONG_MIN <= fst (strtol s) <= LONG_MAX.
Proof.
  unfold strtol.
  destruct (skip_space s) as [s1 k1].
  destruct (take_sign s1) as [[neg s2] k2].
  destruct (take_digits 0 s2) as [v k3].
  destruct k3; simpl; [unfold LONG_MIN, LONG_MAX; lia|].
  apply clamp_long_range.
Qed.

Lemma ws_name_to_number_range (s : string) :
  ws_name_to_number s = -1 \/ 0 <= ws_name_to_number s < LONG_MAX.
Proof.
  unfold ws_name_to_number. pose proof (strtol_range s) as Hr.
  destruct (strtol s) as [v k]. simpl in Hr.
  destruct (Z.eqb_spec v LONG_MIN); simpl; auto.
  destruct (Z.eqb_spec v LONG_MAX); simpl; auto.
  destruct (Z.ltb_spec v 0); simpl; auto.
  destruct (Nat.eqb k 0); auto.
  right. lia.
Qed.

Lemma workspace_name_cmp_named (a b : string) :
  is_named a = true -> is_named b = true ->
  workspace_name_cmp a b = strcmp b a.
Proof.
  unfold is_named, workspace_name_cmp. now intros -> ->.
Qed.

Lemma workspace_name_cmp_numeric (a b : string) :
  is_numeric a = true -> is_numeric b = true ->
  workspace_name_cmp a b = to_gint (ws_name_to_number b - ws_name_to_number a).
Proof.
  unfold is_numeric, workspace_name_cmp.
  intros Ha%negb_true_iff Hb%negb_true_iff. now rewrite Ha, Hb.
Qed.

Lemma workspace_name_cmp_named_numeric (a b : string) :
  is_named a = true -> is_numeric b = true -> workspace_name_cmp a b = -1.
Proof.
  unfold is_named, is_numeric, workspace_name_cmp.
  intros Ha Hb%negb_true_iff. now rewrite Ha, Hb.
Qed.

Lemma workspace_name_cmp_numeric_named (a b : string) :
  is_numeric a = true -> is_named b = true -> workspace_name_cmp a b = 1.
Proof.
  unfold is_named, is_numeric, workspace_name_cmp.
  intros Ha%negb_true_iff Hb. now rewrite Ha, Hb.
Qed.

Lemma numeric_or_named (a : string) : {is_numeric a = true} + {is_named a = true}.
Proof.
  unfold is_numeric, is_named.
  destruct (ws_name_to_number a =? -1); [now right | now left].
Qed.

Lemma workspace_name_cmp_refl (a : string) : workspace_name_cmp a a = 0.
Proof.
  destruct (numeric_or_named a) as [Ha|Ha].
  - rewrite workspace_name_cmp_numeric by assumption.
    now rewrite Z.sub_diag.
  - rewrite workspace_name_cmp_named by assumption. apply strcmp_refl.
Qed.

Lemma workspace_name_cmp_zero_sym (a b : string) :
  workspace_name_cmp a b = 0 -> workspace_name_cmp b a = 0.
Proof.
  destruct (numeric_or_named a) as [Ha|Ha], (numeric_or_named b) as [Hb|Hb].
  - rewrite !workspace_name_cmp_numeric by assumption. intros H.
    apply to_gint_zero_opp in H. now rewrite Z.opp_sub_distr, Z.add_comm in H.
  - now rewrite workspace_name_cmp_numeric_named.
  - now rewrite workspace_name_cmp_named_numeric.
  - rewrite !workspace_name_cmp_named by assumption.
    rewrite (strcmp_antisym b a). lia.
Qed.

Lemma workspace_name_cmp_zero (a b : string) :
  workspace_name_cmp a b = 0 ->
  a = b \/ (is_numeric a = true /\ is_numeric b = true).
Proof.
  destruct (numeric_or_named a) as [Ha|Ha], (numeric_or_named b) as [Hb|Hb].
  - auto.
  - now rewrite workspace_name_cmp_numeric_named.
  - now rewrite workspace_name_cmp_named_numeric.
  - rewrite workspace_name_cmp_named by assumption.
    intros H%strcmp_eq. now left.
Qed.

(** ** The GLib list functions *)

Section GSList_facts.
Context {A B : Type} (func : A -> B -> Z) (key : B).

Lemma g_slist_find_custom_Some (l : list A) (pos : nat) (x : A) :
  g_slist_find_custom l key func = Some (pos, x) ->
  l !! pos = Some x /\ func x key = 0 /\
  forall p y, (p < pos)%nat -> l !! p = Some y -> func y key <> 0.
Proof.
  revert pos. induction l as [|y l IH]; intros pos; simpl; [discriminate|].
  destruct (Z.eqb_spec (func y key) 0) as [Hy|Hy].
  - intros [= <- <-]. repeat split; auto. intros p z Hp. lia.
  - destruct (g_slist_find_custom l key func) as [[q z]|] eqn:Hf;
      simpl; [|discriminate].
    intros [= <- <-]. destruct (IH q eq_refl) as (Hq & Hz & Hbefore).
    repeat split; auto.
    intros [|p] v Hp; simpl; [now intros [= <-]|].
    apply Hbefore. lia.
Qed.

Lemma g_slist_find_custom_None (l : list A) :
  g_slist_find_custom l key func = None <->
  Forall (fun y => func y key <> 0) l.
Proof.
  induction l as [|y l IH]; simpl.
  - split; auto.
  - destruct (Z.eqb_spec (func y key) 0) as [Hy|Hy].
    + split; [discriminate|]. intros H. inversion H; subst. contradiction.
    + destruct (g_slist_find_custom l key func) as [[q z]|]; simpl.
      * split; [discriminate|]. intros H. inversion H; subst.
        destruct IH as [_ IH]. now specialize (IH ltac:(assumption)).
      * split; auto. intros _. constructor; auto. now apply IH.
Qed.

(** The first node that matches is found whatever comes after it. *)
Lemma g_slist_find_custom_first (l1 l2 : list A) (x : A) :
  Forall (fun y => func y key <> 0) l1 -> func x key = 0 ->
  g_slist_find_custom (l1 ++ x :: l2) key func = Some (length l1, x).
Proof.
  intros Hl1 Hx. induction Hl1 as [|y l1 Hy _ IH]; simpl.
  - now rewrite Hx.
  - destruct (Z.eqb_spec (func y key) 0); [contradiction|].
    now rewrite IH.
Qed.

(** Writing into a node data that compares like the old data leaves the
    positions found as they are. *)
Lemma g_slist_find_custom_insert (l : list A) (p : nat) (x x' : A) :
  l !! p = Some x -> func x' key = func x key ->
  g_slist_find_custom (<[p := x']> l) key func =
  (fun '(q, y) => (q, if Nat.eqb q p then x' else y))
    <$> g_slist_find_custom l key func.
Proof.
  revert p. induction l as [|y l IH]; intros [|p]; simpl; try discriminate.
  - intros [= ->] ->. destruct (func x key =? 0); [reflexivity|].
    now destruct (g_slist_find_custom l key func) as [[q z]|].
  - intros Hp Hx. destruct (func y key =? 0); [reflexivity|].
    rewrite (IH p Hp Hx).
    now destruct (g_slist_find_custom l key func) as [[q z]|].
Qed.
End GSList_facts.

(** ** The comparator on names, and the lookup by name *)

(** C1, as the code orders the two classes: for every pair of names where
    one is numeric and the other named, the comparator places the named one
    before the numeric one, and never the numeric one before the named one;
    consequently sorting "1", "2", "10", "a", "b" by the comparator gives
    "b", "a", "10", "2", "1". *)
Theorem named_sorts_before_numeric (a b : string) :
  is_numeric a = true -> is_named b = true ->
  sorts_before b a /\ ~ sorts_before a b /\
  g_slist_sort ["1"; "2"; "10"; "a"; "b"] workspace_name_cmp
  = ["b"; "a"; "10"; "2"; "1"].
Proof.
  intros Ha Hb. unfold sorts_before.
  rewrite workspace_name_cmp_named_numeric, workspace_name_cmp_numeric_named
    by assumption.
  split; [lia|]. split; [lia|]. reflexivity.
Qed.

Lemma named_sorts_before_numeric_witness :
  is_numeric "1" = true /\ is_named "a" = true /\
  sorts_before "a" "1" /\ ~ sorts_before "1" "a" /\
  g_slist_sort ["1"; "2"; "10"; "a"; "b"] workspace_name_cmp
  = ["b"; "a"; "10"; "2"; "1"].
Proof.
  split; [reflexivity|]. split; [reflexivity|].
  apply (named_sorts_before_numeric "1" "a"); reflexivity.
Defined.

(** C1 as stated fails: "1" is numeric and "a" is named, yet the comparator
    does not place "1" before "a", and the sorted list is not
    "10", "2", "1", "b", "a". *)
Lemma numeric_before_named_fails :
  is_numeric "1" = true /\ is_named "a" = true /\
  ~ sorts_before "1" "a" /\
  g_slist_sort ["1"; "2"; "10"; "a"; "b"] workspace_name_cmp
  <> ["10"; "2"; "1"; "b"; "a"].
Proof.
  split; [reflexivity|]. split; [reflexivity|]. split.
  - unfold sorts_before. vm_compute. discriminate.
  - vm_compute. discriminate.
Qed.

(** C3 as stated fails: "1" and "01" are distinct names that compare to 0,
    and the lookup of "1" returns the workspace named "01". *)
Lemma distinct_names_compare_equal :
  "1" <> "01" /\ workspace_name_cmp "1" "01" = 0 /\
  g_slist_find_custom [sample_workspace "01" false false "LVDS1"]
    "1" workspace_str_cmp
  = Some (O, sample_workspace "01" false false "LVDS1") /\
  name (sample_workspace "01" false false "LVDS1") <> "1".
Proof.
  repeat split; try reflexivity; discriminate.
Qed.

(** ** The callbacks *)

Lemma invoke_callback_set (c : i3wmCallback) (w : i3workspace) :
  function c <> NULL -> invoke_callback c w = [Call (function c) w (data c)].
Proof.
  unfold invoke_callback. now destruct (Z.eqb_spec (function c) NULL).
Qed.

Lemma invoke_callback_unset (c : i3wmCallback) (w : i3workspace) :
  function c = NULL -> invoke_callback c w = [].
Proof. unfold invoke_callback. now intros ->. Qed.

(** ** The focus handler *)

Lemma workspace_str_cmp_with_focused (w : i3workspace) (b : bool) (s : string) :
  workspace_str_cmp (with_focused w b) s = workspace_str_cmp w s.
Proof. reflexivity. Qed.

(** What the focus handler does to the workspaces its two lookups find:
    the one found for the old name, if any, gets [focused] false and the
    blurred callback first; the one found for the current name gets
    [focused] true and the focused callback last. *)
Lemma on_focus_workspace_present
    (i3wm : i3windowManager) (current old : string)
    (j : nat) (wc : i3workspace) :
  g_slist_find_custom (wlist i3wm) current workspace_str_cmp = Some (j, wc) ->
  let wfocused := with_focused wc true in
  let focus_calls := invoke_callback (on_workspace_focused i3wm) wfocused in
  focused wfocused = true
  /\ (function (on_workspace_focused i3wm) <> NULL ->
      focus_calls = [Call (function (on_workspace_focused i3wm)) wfocused
                          (data (on_workspace_focused i3wm))])
  /\ match g_slist_find_custom (wlist i3wm) old workspace_str_cmp with
     | Some (i, wo) =>
         let wblurred := with_focused wo false in
         let blur_calls :=
           invoke_callback (on_workspace_blurred i3wm) wblurred in
         let l := <[j := wfocused]> (<[i := wblurred]> (wlist i3wm)) in
         on_focus_workspace i3wm current old
         = Done (with_wlist i3wm l) (blur_calls ++ focus_calls)
         /\ focused wblurred = false
         /\ (function (on_workspace_blurred i3wm) <> NULL ->
             blur_calls
             = [Call (function (on_workspace_blurred i3wm)) wblurred
                     (data (on_workspace_blurred i3wm))])
         /\ l !! j = Some wfocused
         /\ (i <> j -> l !! i = Some wblurred)
     | None =>
         let l := <[j := wfocused]> (wlist i3wm) in
         on_focus_workspace i3wm current old
         = Done (with_wlist i3wm l) focus_calls
         /\ l !! j = Some wfocused
     end.
Proof.
  intros Hc wfocused focus_calls.
  pose proof (g_slist_find_custom_Some _ _ _ _ _ Hc) as (Hj & _ & _).
  pose proof (lookup_lt_Some _ _ _ Hj) as Hlen.
  split; [reflexivity|]. split; [intros Hset; now apply invoke_callback_set|].
  unfold on_focus_workspace.
  destruct (g_slist_find_custom (wlist i3wm) old workspace_str_cmp)
    as [[i wo]|] eqn:Ho.
  - pose proof (g_slist_find_custom_Some _ _ _ _ _ Ho) as (Hi & _ & _).
    rewrite (g_slist_find_custom_insert workspace_str_cmp current
               (wlist i3wm) i wo (with_focused wo false) Hi eq_refl).
    rewrite Hc. simpl.
    assert (Hw : with_focused (if Nat.eqb j i then with_focused wo false
                               else wc) true = wfocused).
    { destruct (Nat.eqb_spec j i) as [->|Hne]; [|reflexivity].
      rewrite Hi in Hj. now injection Hj as ->. }
    rewrite Hw. split; [reflexivity|]. split; [reflexivity|].
    split; [intros Hset; now apply invoke_callback_set|]. split.
    + apply list_lookup_insert_eq. now rewrite length_insert.
    + intros Hne. rewrite list_lookup_insert_ne by congruence.
      apply list_lookup_insert_eq. eapply lookup_lt_Some, Hi.
  - rewrite Hc. split; [reflexivity|]. now apply list_lookup_insert_eq.
Qed.

Lemma g_slist_find_custom_elem
    (l : list i3workspace) (s : string) (pos : nat) (w : i3workspace) :
  g_slist_find_custom l s workspace_str_cmp = Some (pos, w) ->
  l !! pos = Some w /\ w ∈ l /\ workspace_name_cmp (name w) s = 0.
Proof.
  intros (Hpos & Hz & _)%g_slist_find_custom_Some.
  split; [assumption|]. split; [|assumption].
  apply list_elem_of_lookup. now exists pos.
Qed.

(** C8, as the code looks names up: for a focus event whose current name is
    the name of a workspace of the list, the names of the list that compare
    equal to the names of the event being spelled like them: the handler
    ends without failing; when the old name is the name of a workspace of
    the list, that workspace gets [focused] false and the blurred callback is
    called on it first; the workspace named by the current name gets
    [focused] true and the focused callback is called on it last; when no
    workspace bears the old name the blur step alone is left out. *)
Theorem on_focus_workspace_named
    (i3wm : i3windowManager) (current old : string) (w0 : i3workspace) :
  w0 ∈ wlist i3wm -> name w0 = current ->
  spelled_alike (wlist i3wm) current -> spelled_alike (wlist i3wm) old ->
  exists j wc,
    wlist i3wm !! j = Some wc /\ name wc = current /\
    let wfocused := with_focused wc true in
    let focus_calls := invoke_callback (on_workspace_focused i3wm) wfocused in
    name wfocused = current /\ focused wfocused = true
    /\ (function (on_workspace_focused i3wm) <> NULL ->
        focus_calls = [Call (function (on_workspace_focused i3wm)) wfocused
                            (data (on_workspace_focused i3wm))])
    /\ match g_slist_find_custom (wlist i3wm) old workspace_str_cmp with
       | Some (i, wo) =>
           let wblurred := with_focused wo false in
           let blur_calls :=
             invoke_callback (on_workspace_blurred i3wm) wblurred in
           let l := <[j := wfocused]> (<[i := wblurred]> (wlist i3wm)) in
           wlist i3wm !! i = Some wo /\ name wo = old
           /\ on_focus_workspace i3wm current old
              = Done (with_wlist i3wm l) (blur_calls ++ focus_calls)
           /\ name wblurred = old /\ focused wblurred = false
           /\ (function (on_workspace_blurred i3wm) <> NULL ->
               blur_calls
               = [Call (function (on_workspace_blurred i3wm)) wblurred
                       (data (on_workspace_blurred i3wm))])
           /\ l !! j = Some wfocused
           /\ (old <> current -> l !! i = Some wblurred)
       | None =>
           let l := <[j := wfocused]> (wlist i3wm) in
           (forall w, w ∈ wlist i3wm -> name w <> old)
           /\ on_focus_workspace i3wm current old
              = Done (with_wlist i3wm l) focus_calls
           /\ l !! j = Some wfocused
       end.
Proof.
  intros Hin Hname Hcur Hold.
  destruct (g_slist_find_custom (wlist i3wm) current workspace_str_cmp)
    as [[j wc]|] eqn:Hc.
  2:{ apply g_slist_find_custom_None in Hc.
      apply (proj1 (Forall_forall _ _) Hc) in Hin. exfalso. apply Hin.
      unfold workspace_str_cmp. rewrite Hname.
      apply workspace_name_cmp_refl. }
  pose proof (g_slist_find_custom_elem _ _ _ _ Hc) as (Hj & Hwc & Hz).
  pose proof (Hcur wc Hwc Hz) as Hnc.
  exists j, wc. split; [assumption|]. split; [assumption|].
  pose proof (on_focus_workspace_present i3wm current old j wc Hc)
    as (Hf & Hcalls & Hmatch).
  cbv zeta in *.
  split; [exact Hnc|]. split; [exact Hf|]. split; [exact Hcalls|].
  destruct (g_slist_find_custom (wlist i3wm) old workspace_str_cmp)
    as [[i wo]|] eqn:Ho.
  - pose proof (g_slist_find_custom_elem _ _ _ _ Ho) as (Hi & Hwo & Hzo).
    pose proof (Hold wo Hwo Hzo) as Hno.
    destruct Hmatch as (Hrun & Hfb & Hbcalls & Hlj & Hli).
    split; [assumption|]. split; [assumption|]. split; [exact Hrun|].
    split; [exact Hno|]. split; [exact Hfb|]. split; [exact Hbcalls|].
    split; [exact Hlj|].
    intros Hne. apply Hli. intros ->. apply Hne.
    rewrite Hi in Hj. injection Hj as ->. congruence.
  - destruct Hmatch as (Hrun & Hlj).
    split; [|split; assumption].
    intros w Hw Hnw.
    apply g_slist_find_custom_None in Ho.
    apply (proj1 (Forall_forall _ _) Ho) in Hw. apply Hw.
    unfold workspace_str_cmp. rewrite Hnw. apply workspace_name_cmp_refl.
Qed.

Lemma spelled_alike_focus_i3wm (s : string) :
  s = "1" \/ s = "2" -> spelled_alike (wlist focus_i3wm) s.
Proof.
  intros Hs w Hw Hz.
  change (wlist focus_i3wm)
    with [sample_workspace "2" false false "LVDS1";
          sample_workspace "1" true false "LVDS1"] in Hw.
  apply elem_of_cons in Hw as [->|Hw];
    [|apply elem_of_cons in Hw as [->|Hw]; [|now apply elem_of_nil in Hw]];
    destruct Hs as [-> | ->]; try reflexivity;
    vm_compute in Hz; discriminate Hz.
Qed.

Lemma on_focus_workspace_named_witness :
  sample_workspace "2" false false "LVDS1" ∈ wlist focus_i3wm
  /\ spelled_alike (wlist focus_i3wm) "2"
  /\ spelled_alike (wlist focus_i3wm) "1"
  /\ exists j wc,
       wlist focus_i3wm !! j = Some wc /\ name wc = "2"
       /\ on_focus_workspace focus_i3wm "2" "1"
          = Done (with_wlist focus_i3wm
                    (<[j := with_focused wc true]>
                       (<[1%nat := sample_workspace "1" false false "LVDS1"]>
                          (wlist focus_i3wm))))
                 [Call 103 (sample_workspace "1" false false "LVDS1") 14;
                  Call 104 (with_focused wc true) 13].
Proof.
  assert (Hin : sample_workspace "2" false false "LVDS1" ∈ wlist focus_i3wm).
  { apply list_elem_of_lookup. now exists O. }
  assert (H2 : spelled_alike (wlist focus_i3wm) "2")
    by (apply spelled_alike_focus_i3wm; now right).
  assert (H1 : spelled_alike (wlist focus_i3wm) "1")
    by (apply spelled_alike_focus_i3wm; now left).
  split; [exact Hin|]. split; [exact H2|]. split; [exact H1|].
  destruct (on_focus_workspace_named focus_i3wm "2" "1"
              (sample_workspace "2" false false "LVDS1") Hin eq_refl H2 H1)
    as (j & wc & Hj & Hn & _ & _ & _ & Hm).
  exists j, wc. split; [exact Hj|]. split; [exact Hn|].
  exact (proj1 (proj2 (proj2 Hm))).
Defined.

(** C8 as stated fails: the list holds "1" and "01"; on a focus event from
    "1" to "01" both lookups find the workspace "1", which is blurred and
    then focused, and both callbacks are called on it; the workspace "01" of
    the current name keeps [focused] false and the workspace "1" of the old
    name ends with [focused] true. *)
Lemma focus_reaches_other_spelling :
  sample_workspace "01" false false "LVDS1" ∈ wlist alike_i3wm
  /\ sample_workspace "1" true false "LVDS1" ∈ wlist alike_i3wm
  /\ on_focus_workspace alike_i3wm "01" "1"
     = Done (with_wlist alike_i3wm
               [sample_workspace "1" true false "LVDS1";
                sample_workspace "01" false false "LVDS1"])
            [Call 103 (sample_workspace "1" false false "LVDS1") 14;
             Call 104 (sample_workspace "1" true false "LVDS1") 13].
Proof.
  split; [|split].
  - apply list_elem_of_lookup. now exists 1%nat.
  - apply list_elem_of_lookup. now exists O.
  - reflexivity.
Qed.

(** ** The move handler *)

Lemma g_strcmp0_differ (a b : string) :
  a <> b -> negb (g_strcmp0 a b =? 0) = true.
Proof.
  intros Hne. unfold g_strcmp0.
  destruct (Z.eqb_spec (strcmp a b) 0) as [H%strcmp_eq|]; [contradiction|].
  reflexivity.
Qed.

Lemma g_strcmp0_same (a : string) : negb (g_strcmp0 a a =? 0) = false.
Proof. unfold g_strcmp0. now rewrite strcmp_refl. Qed.

(** The loop passes over the replies whose workspace is found with the same
    output and is left at the first reply whose workspace has another. *)
Lemma on_move_workspace_loop_first
    (ours : list i3workspace) (before after : list i3ipcWorkspaceReply)
    (wtheir : i3ipcWorkspaceReply) (pos : nat) (wour : i3workspace) vars :
  Forall (fun t => exists p w,
            g_slist_find_custom ours (reply_name t) workspace_str_cmp
            = Some (p, w) /\ output w = reply_output t) before ->
  g_slist_find_custom ours (reply_name wtheir) workspace_str_cmp
  = Some (pos, wour) ->
  output wour <> reply_output wtheir ->
  on_move_workspace_loop ours (before ++ wtheir :: after) vars
  = Exit (Some (wtheir, (pos, wour))).
Proof.
  intros Hb Hf Hne. revert vars.
  induction Hb as [|t before (p & w & Ht & Hout) _ IH]; intros vars; simpl.
  - rewrite Hf. rewrite g_strcmp0_differ by congruence. reflexivity.
  - rewrite Ht, Hout, g_strcmp0_same. apply IH.
Qed.

(** A workspace put into the list by [g_slist_insert_sorted] is the one a
    lookup of its name finds. *)
Lemma g_slist_find_custom_insert_sorted (l : list i3workspace) (x : i3workspace) :
  exists q,
    g_slist_find_custom (g_slist_insert_sorted l x i3wm_workspace_cmp)
      (name x) workspace_str_cmp = Some (q, x).
Proof.
  induction l as [|y l [q IH]]; simpl.
  - exists O. unfold workspace_str_cmp. now rewrite workspace_name_cmp_refl.
  - unfold i3wm_workspace_cmp at 1.
    destruct (Z.ltb_spec 0 (workspace_name_cmp (name x) (name y))); simpl.
    + unfold workspace_str_cmp at 1.
      destruct (Z.eqb_spec (workspace_name_cmp (name y) (name x)) 0)
        as [Hz%workspace_name_cmp_zero_sym|_]; [lia|].
      rewrite IH. now exists (S q).
    + exists O. unfold workspace_str_cmp at 1.
      now rewrite workspace_name_cmp_refl.
Qed.

(** C9, as the code scans: when a reply of the snapshot is the first one
    whose workspace, looked up by name, has another output, every earlier
    reply having a workspace with its own output, and the workspace found
    bears the name of the reply, the handler removes that workspace and
    invokes the destroyed callback on it, then inserts the workspace made
    from the reply and invokes the created callback on it: with both
    callbacks set that is one destroyed call followed by one created call,
    both with that name, and the workspace the list then holds for that name
    has the output of the snapshot. *)
Theorem on_move_workspace_first_mismatch
    (i3wm : i3windowManager) (before after : list i3ipcWorkspaceReply)
    (wtheir : i3ipcWorkspaceReply) (pos : nat) (wour : i3workspace) :
  Forall (fun t => exists p w,
            g_slist_find_custom (wlist i3wm) (reply_name t) workspace_str_cmp
            = Some (p, w) /\ output w = reply_output t) before ->
  g_slist_find_custom (wlist i3wm) (reply_name wtheir) workspace_str_cmp
  = Some (pos, wour) ->
  name wour = reply_name wtheir ->
  output wour <> reply_output wtheir ->
  let wnew := create_workspace wtheir in
  let l := g_slist_insert_sorted (g_slist_remove (wlist i3wm) pos) wnew
             i3wm_workspace_cmp in
  let calls := invoke_callback (on_workspace_destroyed i3wm) wour
               ++ invoke_callback (on_workspace_created i3wm) wnew in
  on_move_workspace i3wm (Fetched (before ++ wtheir :: after))
  = Done (with_wlist i3wm l) calls
  /\ (function (on_workspace_destroyed i3wm) <> NULL ->
      function (on_workspace_created i3wm) <> NULL ->
      calls = [Call (function (on_workspace_destroyed i3wm)) wour
                    (data (on_workspace_destroyed i3wm));
               Call (function (on_workspace_created i3wm)) wnew
                    (data (on_workspace_created i3wm))])
  /\ name wour = reply_name wtheir
  /\ name wnew = reply_name wtheir
  /\ output wnew = reply_output wtheir
  /\ exists q,
       g_slist_find_custom l (reply_name wtheir) workspace_str_cmp
       = Some (q, wnew).
Proof.
  intros Hb Hf Hname Hout wnew l calls.
  split; [|split; [|repeat split; try assumption]].
  - unfold on_move_workspace. simpl.
    now rewrite (on_move_workspace_loop_first _ _ _ _ _ _ None Hb Hf Hout).
  - intros Hd Hc. unfold calls.
    now rewrite !invoke_callback_set by assumption.
  - apply (g_slist_find_custom_insert_sorted _ wnew).
Qed.

Lemma on_move_workspace_first_mismatch_witness :
  g_slist_find_custom (wlist move_i3wm) "1" workspace_str_cmp
  = Some (1%nat, sample_workspace "1" false false "LVDS1")
  /\ on_move_workspace move_i3wm (Fetched moved_one)
     = Done (with_wlist move_i3wm
               [sample_workspace "2" false false "LVDS1";
                sample_workspace "1" false false "HDMI1"])
            [Call 102 (sample_workspace "1" false false "LVDS1") 12;
             Call 101 (sample_workspace "1" false false "HDMI1") 11].
Proof.
  split; [reflexivity|].
  refine (proj1 (on_move_workspace_first_mismatch move_i3wm []
                   [sample_reply "2" false false "LVDS1"]
                   (sample_reply "1" false false "HDMI1") 1%nat
                   (sample_workspace "1" false false "LVDS1")
                   _ eq_refl eq_refl _)).
  - constructor.
  - discriminate.
Defined.

(** C9 as stated fails: the list holds "1" on LVDS1 and the snapshot holds
    "1" on HDMI1, but "2" has moved as well and comes first in the snapshot;
    the two calls are made for "2" and "1" stays on LVDS1. *)
Lemma move_handles_first_mismatch_only :
  sample_workspace "1" false false "LVDS1" ∈ wlist move_i3wm
  /\ sample_reply "1" false false "HDMI1" ∈ moved_both
  /\ on_move_workspace move_i3wm (Fetched moved_both)
     = Done (with_wlist move_i3wm
               [sample_workspace "2" false false "HDMI2";
                sample_workspace "1" false false "LVDS1"])
            [Call 102 (sample_workspace "2" false false "LVDS1") 12;
             Call 101 (sample_workspace "2" false false "HDMI2") 11].
Proof.
  split; [|split].
  - apply list_elem_of_lookup. now exists 1%nat.
  - apply list_elem_of_lookup. now exists 1%nat.
  - reflexivity.
Qed.

(** ** A fetch that fails *)

(** The handlers pass no error object to the fetch: a fetch that fails is a
    fetch of the empty list to them, whatever the error. *)
Lemma handlers_drop_fetch_error (i3wm : i3windowManager) (e : GError) :
  on_init_workspace i3wm (FetchFailed e) = on_init_workspace i3wm (Fetched [])
  /\ on_empty_workspace i3wm (FetchFailed e)
     = on_empty_workspace i3wm (Fetched [])
  /\ on_urgent_workspace i3wm (FetchFailed e)
     = on_urgent_workspace i3wm (Fetched [])
  /\ on_move_workspace i3wm (FetchFailed e)
     = on_move_workspace i3wm (Fetched []).
Proof. repeat split. Qed.

(** With nothing fetched the init, urgent and move handlers use pointers
    that were never assigned; the empty handler takes the first workspace of
    the list for the one that has gone. *)
Lemma handlers_on_failed_fetch (i3wm : i3windowManager) (e : GError) :
  on_init_workspace i3wm (FetchFailed e) = Undefined
  /\ on_urgent_workspace i3wm (FetchFailed e) = Undefined
  /\ on_move_workspace i3wm (FetchFailed e) = Undefined
  /\ on_empty_workspace i3wm (FetchFailed e)
     = match wlist i3wm with
       | [] => Undefined
       | w :: l =>
           Done (with_wlist i3wm l)
                (invoke_callback (on_workspace_destroyed i3wm) w)
       end.
Proof.
  repeat split. unfold on_empty_workspace. simpl.
  now destruct (wlist i3wm).
Qed.

(** C2, on the code: with the workspaces "2" and "1" in the list and the
    callbacks set, a fetch that fails makes the empty handler remove "2" and
    call the destroyed callback, and leads the init, urgent and move
    handlers into undefined behaviour; no handler returns the error. *)
Theorem failed_fetch_mutates_list :
  on_empty_workspace move_i3wm (FetchFailed sample_error)
  = Done (with_wlist move_i3wm [sample_workspace "1" false false "LVDS1"])
         [Call 102 (sample_workspace "2" false false "LVDS1") 12]
  /\ on_init_workspace move_i3wm (FetchFailed sample_error) = Undefined
  /\ on_urgent_workspace move_i3wm (FetchFailed sample_error) = Undefined
  /\ on_move_workspace move_i3wm (FetchFailed sample_error) = Undefined.
Proof. repeat split. Qed.

(** ** Events with nothing to reconcile *)

(** Whenever the urgent handler ends it has invoked the urgent callback. *)
Lemma on_urgent_workspace_invokes (i3wm : i3windowManager) (r : fetched) :
  on_urgent_workspace i3wm r = Undefined \/
  exists l w, on_urgent_workspace i3wm r
              = Done (with_wlist i3wm l)
                     (invoke_callback (on_workspace_urgent i3wm) w).
Proof.
  unfold on_urgent_workspace.
  destruct (on_urgent_workspace_loop _ _ _) as [[[wtheir [pos w]]|]|]; eauto.
Qed.

(** Whenever the init handler ends it has added a workspace to the list and
    invoked the created callback. *)
Lemma on_init_workspace_invokes (i3wm : i3windowManager) (r : fetched) :
  on_init_workspace i3wm r = Undefined \/
  exists w, on_init_workspace i3wm r
            = Done (with_wlist i3wm
                      (g_slist_insert_sorted (wlist i3wm) w i3wm_workspace_cmp))
                   (invoke_callback (on_workspace_created i3wm) w).
Proof.
  unfold on_init_workspace.
  destruct (on_init_workspace_loop _ _ _) as [wreply|]; eauto.
Qed.

(** Whenever the empty handler ends it has removed a workspace of the list
    and invoked the destroyed callback on it. *)
Lemma on_empty_workspace_invokes (i3wm : i3windowManager) (r : fetched) :
  on_empty_workspace i3wm r = Undefined \/
  exists pos w, on_empty_workspace i3wm r
                = Done (with_wlist i3wm (g_slist_remove (wlist i3wm) pos))
                       (invoke_callback (on_workspace_destroyed i3wm) w).
Proof.
  unfold on_empty_workspace.
  destruct (on_empty_workspace_loop _ _ _ _) as [[pos w]|]; eauto.
Qed.

(** C4, on the code: with the workspaces "2" and "1" in the list and a
    snapshot that has the same urgent flags, the urgent handler leaves the
    list as it is but calls the urgent callback, on the workspace of the last
    reply of the snapshot. *)
Theorem urgent_unchanged_invokes_callback :
  Forall (fun t => exists p w,
            g_slist_find_custom (wlist move_i3wm) (reply_name t)
              workspace_str_cmp = Some (p, w)
            /\ urgent w = reply_urgent t) unchanged
  /\ on_urgent_workspace move_i3wm (Fetched unchanged)
     = Done move_i3wm [Call 105 (sample_workspace "2" false false "LVDS1") 15].
Proof.
  split; [|reflexivity].
  repeat constructor.
  - now exists 1%nat, (sample_workspace "1" false false "LVDS1").
  - now exists O, (sample_workspace "2" false false "LVDS1").
Qed.

(** C5, on the code: with the workspaces "2" and "1" in the list and a
    snapshot of "1" and "2", no name of the snapshot is new; the init handler
    adds a second workspace "2", made from the last reply of the snapshot,
    and calls the created callback on it. *)
Theorem init_nothing_new_duplicates :
  Forall (fun t =>
            g_slist_find_custom (wlist move_i3wm) (reply_name t)
              workspace_str_cmp <> None) unchanged
  /\ on_init_workspace move_i3wm (Fetched unchanged)
     = Done (with_wlist move_i3wm
               [sample_workspace "2" false false "LVDS1";
                sample_workspace "2" false false "LVDS1";
                sample_workspace "1" false false "LVDS1"])
            [Call 101 (sample_workspace "2" false false "LVDS1") 11].
Proof.
  split; [|reflexivity]. repeat constructor; discriminate.
Qed.

(** The empty handler removes the first workspace whose name is not found in
    the snapshot and invokes the destroyed callback on it. *)
Lemma on_empty_workspace_loop_first
    (replies : list i3ipcWorkspaceReply) (before after : list i3workspace)
    (w : i3workspace) (pos : nat) vars :
  Forall (fun v => g_slist_find_custom replies (name v)
                     workspace_reply_str_cmp <> None) before ->
  g_slist_find_custom replies (name w) workspace_reply_str_cmp = None ->
  on_empty_workspace_loop replies (before ++ w :: after) pos vars
  = Some ((pos + length before)%nat, w).
Proof.
  intros Hb Hw. revert pos vars.
  induction Hb as [|v before Hv _ IH]; intros pos vars; simpl.
  - rewrite Hw. do 2 f_equal. lia.
  - destruct (g_slist_find_custom replies (name v) workspace_reply_str_cmp);
      [|contradiction].
    rewrite IH. do 2 f_equal. lia.
Qed.

(** X13: when a workspace of the list has a name the lookup does not find
    in the snapshot, the empty handler removes the first such workspace,
    leaves the others in their order and invokes the destroyed callback on
    the removed one. *)
Lemma on_empty_workspace_first_absent
    (i3wm : i3windowManager) (replies : list i3ipcWorkspaceReply)
    (before after : list i3workspace) (w : i3workspace) :
  wlist i3wm = before ++ w :: after ->
  Forall (fun v => g_slist_find_custom replies (name v)
                     workspace_reply_str_cmp <> None) before ->
  g_slist_find_custom replies (name w) workspace_reply_str_cmp = None ->
  on_empty_workspace i3wm (Fetched replies)
  = Done (with_wlist i3wm (before ++ after))
         (invoke_callback (on_workspace_destroyed i3wm) w).
Proof.
  intros Hl Hb Hw. unfold on_empty_workspace. simpl. rewrite Hl.
  rewrite (on_empty_workspace_loop_first _ _ _ _ O None Hb Hw). simpl.
  unfold g_slist_remove. do 2 f_equal. clear Hl Hb.
  induction before as [|v before IH]; simpl; [reflexivity|].
  now f_equal.
Qed.

(** C6, on the code: with the workspaces "2" and "1" in the list and a
    snapshot of "1" and "2", every name of the list is in the snapshot; the
    empty handler removes the last workspace of the list, "1", and calls the
    destroyed callback on it. *)
Theorem empty_nothing_gone_removes_last :
  Forall (fun v => g_slist_find_custom unchanged (name v)
                     workspace_reply_str_cmp <> None) (wlist move_i3wm)
  /\ on_empty_workspace move_i3wm (Fetched unchanged)
     = Done (with_wlist move_i3wm [sample_workspace "2" false false "LVDS1"])
            [Call 102 (sample_workspace "1" false false "LVDS1") 12].
Proof.
  split; [|reflexivity]. repeat constructor; discriminate.
Qed.

(** ** The data of the blurred and the focused callback *)

(** Setting the blurred callback stores its data in the focused slot, and
    setting the focused callback stores its data in the blurred slot. *)
Lemma set_blurred_focused_data (i3wm : i3windowManager) (f d : gpointer) :
  on_workspace_blurred (i3wm_set_on_workspace_blurred i3wm f d)
  = {| function := f; data := data (on_workspace_blurred i3wm) |}
  /\ on_workspace_focused (i3wm_set_on_workspace_blurred i3wm f d)
     = {| function := function (on_workspace_focused i3wm); data := d |}
  /\ on_workspace_focused (i3wm_set_on_workspace_focused i3wm f d)
     = {| function := f; data := data (on_workspace_focused i3wm) |}
  /\ on_workspace_blurred (i3wm_set_on_workspace_focused i3wm f d)
     = {| function := function (on_workspace_blurred i3wm); data := d |}.
Proof. repeat split. Qed.

(** C7, on the code: after the blurred callback 103 is set with the data 13
    and the focused callback 104 with the data 14, a focus event from "1" to
    "2" calls the blurred callback with 14 and the focused callback with 13;
    and a blurred callback set alone on a new delegate is called with NULL. *)
Theorem blurred_focused_data_swapped :
  on_focus_workspace focus_i3wm "2" "1"
  = Done (with_wlist focus_i3wm
            [sample_workspace "2" true false "LVDS1";
             sample_workspace "1" false false "LVDS1"])
         [Call 103 (sample_workspace "1" false false "LVDS1") 14;
          Call 104 (sample_workspace "2" true false "LVDS1") 13]
  /\ invoke_callback
       (on_workspace_blurred (i3wm_set_on_workspace_blurred new_i3wm 103 13))
       (sample_workspace "1" false false "LVDS1")
     = [Call 103 (sample_workspace "1" false false "LVDS1") NULL].
Proof. split; reflexivity. Qed.

(** ** The order of the workspace list *)

(** ** The comparator as an order *)

Lemma to_gint_pos_opp (z : Z) : 0 < to_gint z -> to_gint (- z) < 0.
Proof.
  unfold to_gint. intros Hz.
  pose proof (Z.mod_pos_bound (z + 2 ^ 31) (2 ^ 32) ltac:(lia)) as Hm.
  pose proof (Z.div_mod (z + 2 ^ 31) (2 ^ 32) ltac:(lia)) as Hd.
  set (m := (z + 2 ^ 31) mod 2 ^ 32) in *.
  set (k := (z + 2 ^ 31) / 2 ^ 32) in *.
  replace (- z + 2 ^ 31) with ((2 ^ 32 - m) + (- k) * 2 ^ 32) by lia.
  rewrite Z.mod_add by lia. rewrite Z.mod_small; lia.
Qed.

(** Of two names one is not after the other, whatever the names. *)
Lemma workspace_name_cmp_total (a b : string) :
  0 < workspace_name_cmp a b -> workspace_name_cmp b a <= 0.
Proof.
  destruct (numeric_or_named a) as [Ha|Ha], (numeric_or_named b) as [Hb|Hb].
  - rewrite !workspace_name_cmp_numeric by assumption. intros H.
    apply to_gint_pos_opp in H.
    replace (ws_name_to_number a - ws_name_to_number b)
      with (- (ws_name_to_number b - ws_name_to_number a)) by lia.
    lia.
  - rewrite (workspace_name_cmp_named_numeric b a) by assumption. lia.
  - rewrite (workspace_name_cmp_named_numeric a b) by assumption. lia.
  - rewrite !workspace_name_cmp_named by assumption.
    rewrite (strcmp_antisym b a). lia.
Qed.

Lemma workspace_name_cmp_fits (a b : string) :
  is_numeric a = true -> is_numeric b = true ->
  fits_gint a -> fits_gint b ->
  workspace_name_cmp a b = ws_name_to_number b - ws_name_to_number a.
Proof.
  intros Ha Hb Fa Fb. rewrite workspace_name_cmp_numeric by assumption.
  unfold fits_gint, is_numeric in *.
  destruct (ws_name_to_number_range a) as [Ea|Ra];
    [rewrite Ea in Ha; discriminate|].
  destruct (ws_name_to_number_range b) as [Eb|Rb];
    [rewrite Eb in Hb; discriminate|].
  apply to_gint_small. lia.
Qed.

(** On names whose numbers fit a [gint] the comparison is transitive. *)
Lemma workspace_name_cmp_trans (a b c : string) :
  fits_gint a -> fits_gint b -> fits_gint c ->
  workspace_name_cmp a b <= 0 -> workspace_name_cmp b c <= 0 ->
  workspace_name_cmp a c <= 0.
Proof.
  intros Fa Fb Fc.
  destruct (numeric_or_named a) as [Ha|Ha], (numeric_or_named b) as [Hb|Hb],
           (numeric_or_named c) as [Hc|Hc];
    repeat first
      [ rewrite !workspace_name_cmp_fits by assumption
      | rewrite !workspace_name_cmp_named_numeric by assumption
      | rewrite !workspace_name_cmp_numeric_named by assumption
      | rewrite !workspace_name_cmp_named by assumption ];
    try lia.
  intros Hab Hbc. now apply (strcmp_trans c b a).
Qed.

(** C3, as the code compares: for names whose numbers are below 2^31 the
    result is 0 exactly when the names are equal or both are numeric with the
    same number, whatever their spelling; so a lookup by name returns a
    workspace whose name is the name asked for, or a numeric name with the
    number of the name asked for. *)
Theorem compare_to_zero_lookup
    (a b : string) (l : list i3workspace) (pos : nat) (w : i3workspace) :
  fits_gint a -> fits_gint b ->
  (workspace_name_cmp a b = 0 <->
   a = b \/ (is_numeric a = true /\ is_numeric b = true
             /\ ws_name_to_number a = ws_name_to_number b))
  /\ (g_slist_find_custom l b workspace_str_cmp = Some (pos, w) ->
      fits_gint (name w) ->
      l !! pos = Some w
      /\ (name w = b \/ (is_numeric (name w) = true /\ is_numeric b = true
                         /\ ws_name_to_number (name w)
                            = ws_name_to_number b))).
Proof.
  intros Fa Fb.
  assert (Hzero : forall x y, fits_gint x -> fits_gint y ->
            workspace_name_cmp x y = 0 ->
            x = y \/ (is_numeric x = true /\ is_numeric y = true
                      /\ ws_name_to_number x = ws_name_to_number y)).
  { intros x y Fx Fy H.
    destruct (workspace_name_cmp_zero x y H) as [E|[Nx Ny]]; [now left|].
    right. rewrite workspace_name_cmp_fits in H by assumption.
    repeat split; try assumption. lia. }
  split; [split|].
  - now apply Hzero.
  - intros [->|(Na & Nb & E)]; [apply workspace_name_cmp_refl|].
    rewrite workspace_name_cmp_fits by assumption. lia.
  - intros Hf Fw. apply g_slist_find_custom_Some in Hf as (Hpos & Hz & _).
    split; [assumption|]. now apply Hzero.
Qed.

Lemma compare_to_zero_lookup_witness :
  fits_gint "01" /\ fits_gint "1"
  /\ workspace_name_cmp "01" "1" = 0
  /\ g_slist_find_custom [sample_workspace "2" false false "LVDS1";
                          sample_workspace "01" false false "LVDS1"]
       "1" workspace_str_cmp
     = Some (1%nat, sample_workspace "01" false false "LVDS1")
  /\ ("01" = "1" \/ (is_numeric "01" = true /\ is_numeric "1" = true
                     /\ ws_name_to_number "01" = ws_name_to_number "1"))
  /\ (name (sample_workspace "01" false false "LVDS1") = "1"
      \/ (is_numeric (name (sample_workspace "01" false false "LVDS1")) = true
          /\ is_numeric "1" = true
          /\ ws_name_to_number (name (sample_workspace "01" false false "LVDS1"))
             = ws_name_to_number "1")).
Proof.
  assert (Fa : fits_gint "01") by reflexivity.
  assert (Fb : fits_gint "1") by reflexivity.
  pose proof (compare_to_zero_lookup "01" "1"
                [sample_workspace "2" false false "LVDS1";
                 sample_workspace "01" false false "LVDS1"]
                1%nat (sample_workspace "01" false false "LVDS1") Fa Fb)
    as (H1 & H2).
  split; [exact Fa|]. split; [exact Fb|]. split; [reflexivity|].
  split; [reflexivity|]. split.
  - apply H1. reflexivity.
  - apply H2; reflexivity.
Defined.

Section Sorting.
Context {A : Type} (func : A -> A -> Z).

Lemma g_slist_sort_merge_nil_l (l2 : list A) :
  g_slist_sort_merge func [] l2 = l2.
Proof. now destruct l2. Qed.

Lemma g_slist_sort_merge_nil_r (l1 : list A) :
  g_slist_sort_merge func l1 [] = l1.
Proof. now destruct l1. Qed.

Lemma g_slist_sort_merge_cons (x y : A) (l1 l2 : list A) :
  g_slist_sort_merge func (x :: l1) (y :: l2)
  = if func x y <=? 0 then x :: g_slist_sort_merge func l1 (y :: l2)
    else y :: g_slist_sort_merge func (x :: l1) l2.
Proof. reflexivity. Qed.

Lemma g_slist_sort_merge_Permutation (l1 l2 : list A) :
  g_slist_sort_merge func l1 l2 ≡ₚ l1 ++ l2.
Proof.
  revert l2. induction l1 as [|x l1 IH1]; intros l2.
  - now rewrite g_slist_sort_merge_nil_l.
  - induction l2 as [|y l2 IH2].
    + now rewrite g_slist_sort_merge_nil_r, app_nil_r.
    + rewrite g_slist_sort_merge_cons. destruct (func x y <=? 0).
      * simpl. now rewrite IH1.
      * rewrite IH2. apply (Permutation_middle (x :: l1) l2 y).
Qed.

Lemma g_slist_sort_real_Permutation (bound : nat) (l : list A) :
  g_slist_sort_real bound func l ≡ₚ l.
Proof.
  revert l. induction bound as [|bound IH]; intros [|x [|y l]];
    try reflexivity.
  cbn [g_slist_sort_real]. rewrite g_slist_sort_merge_Permutation, !IH.
  now rewrite take_drop.
Qed.

Lemma g_slist_sort_Permutation (l : list A) : g_slist_sort l func ≡ₚ l.
Proof. apply g_slist_sort_real_Permutation. Qed.

Lemma g_slist_insert_sorted_Permutation (l : list A) (x : A) :
  g_slist_insert_sorted l x func ≡ₚ x :: l.
Proof.
  induction l as [|y l IH]; simpl; [reflexivity|].
  destruct (0 <? func x y); [|reflexivity].
  rewrite IH. apply perm_swap.
Qed.

(** Of two elements one is not after the other: all that the merge and the
    sorted insertion need. *)
Hypothesis func_total : forall a b, 0 < func a b -> func b a <= 0.

Lemma HdRel_g_slist_sort_merge (a : A) (l1 l2 : list A) :
  HdRel (not_after func) a l1 -> HdRel (not_after func) a l2 ->
  HdRel (not_after func) a (g_slist_sort_merge func l1 l2).
Proof.
  intros H1 H2. destruct l1 as [|x l1].
  - now rewrite g_slist_sort_merge_nil_l.
  - destruct l2 as [|y l2].
    + now rewrite g_slist_sort_merge_nil_r.
    + rewrite g_slist_sort_merge_cons. apply HdRel_inv in H1, H2.
      destruct (func x y <=? 0); now constructor.
Qed.

Lemma g_slist_sort_merge_Sorted (l1 l2 : list A) :
  Sorted (not_after func) l1 -> Sorted (not_after func) l2 ->
  Sorted (not_after func) (g_slist_sort_merge func l1 l2).
Proof.
  intros H1. revert l2. induction H1 as [|x l1 Hs1 IH1 Hx]; intros l2 H2.
  - now rewrite g_slist_sort_merge_nil_l.
  - induction H2 as [|y l2 Hs2 IH2 Hy].
    + rewrite g_slist_sort_merge_nil_r. now constructor.
    + rewrite g_slist_sort_merge_cons.
      destruct (Z.leb_spec (func x y) 0) as [Hxy|Hxy].
      * constructor; [apply IH1; now constructor|].
        apply HdRel_g_slist_sort_merge; [assumption|now constructor].
      * constructor; [assumption|].
        apply HdRel_g_slist_sort_merge; [|assumption].
        constructor. now apply func_total.
Qed.

Lemma g_slist_sort_real_Sorted (bound : nat) (l : list A) :
  (length l <= bound)%nat -> Sorted (not_after func) (g_slist_sort_real bound func l).
Proof.
  revert l. induction bound as [|bound IH]; intros [|x [|y l]] Hlen;
    try (simpl in Hlen; lia); try (repeat constructor).
  cbn [g_slist_sort_real].
  assert (Hhalf : (1 <= length (x :: y :: l) / 2 < length (x :: y :: l))%nat).
  { cbn [length]. split.
    - apply Nat.div_le_lower_bound; lia.
    - apply Nat.div_lt; lia. }
  apply g_slist_sort_merge_Sorted; apply IH.
  - rewrite length_take. simpl in *. lia.
  - rewrite length_drop. simpl in *. lia.
Qed.

Lemma g_slist_sort_Sorted (l : list A) : Sorted (not_after func) (g_slist_sort l func).
Proof. now apply g_slist_sort_real_Sorted. Qed.

Lemma g_slist_insert_sorted_Sorted (l : list A) (x : A) :
  Sorted (not_after func) l -> Sorted (not_after func) (g_slist_insert_sorted l x func).
Proof.
  induction 1 as [|y l Hs IH Hy]; simpl; [repeat constructor|].
  destruct (Z.ltb_spec 0 (func x y)) as [Hxy|Hxy].
  - constructor; [assumption|].
    destruct l as [|z l]; simpl.
    + constructor. now apply func_total.
    + apply HdRel_inv in Hy.
      destruct (0 <? func x z); constructor;
        [assumption | now apply func_total].
  - repeat constructor; assumption.
Qed.

(** Removing a node keeps the order where the comparison is transitive. *)
Lemma g_slist_remove_Sorted (P : A -> Prop) (l : list A) (pos : nat) :
  (forall a b c, P a -> P b -> P c ->
     not_after func a b -> not_after func b c -> not_after func a c) ->
  Forall P l -> Sorted (not_after func) l -> Sorted (not_after func) (g_slist_remove l pos).
Proof.
  intros Htrans HP Hs. unfold g_slist_remove. revert pos.
  induction Hs as [|x l Hs IH Hx]; intros [|pos]; simpl;
    try constructor; try assumption.
  - apply IH. now inversion HP.
  - inversion HP as [|? ? Px HPl]; subst.
    destruct l as [|y l]; [destruct pos; constructor|].
    apply HdRel_inv in Hx. destruct pos as [|pos]; simpl.
    + destruct l as [|z l]; constructor.
      apply Sorted_inv in Hs as [_ Hy%HdRel_inv].
      inversion HPl as [|? ? Py HPl']; subst.
      inversion HPl' as [|? ? Pz _]; subst.
      now apply (Htrans x y z).
    + now constructor.
Qed.
End Sorting.

(** ** The order of the list under the handlers *)

Lemma i3wm_workspace_cmp_total (a b : i3workspace) :
  0 < i3wm_workspace_cmp a b -> i3wm_workspace_cmp b a <= 0.
Proof. apply workspace_name_cmp_total. Qed.

Lemma wlist_sorted_Sorted (l : list i3workspace) :
  wlist_sorted l = true <-> Sorted (not_after i3wm_workspace_cmp) l.
Proof.
  induction l as [|x [|y l] IH].
  - split; [constructor | reflexivity].
  - split; [repeat constructor | reflexivity].
  - change (wlist_sorted (x :: y :: l))
      with ((i3wm_workspace_cmp x y <=? 0) && wlist_sorted (y :: l)).
    rewrite andb_true_iff, IH, Z.leb_le. split.
    + intros [Hxy Hs]. constructor; [assumption | now constructor].
    + intros [Hs Hxy%HdRel_inv]%Sorted_inv. now split.
Qed.

Lemma wlist_sorted_names (l l' : list i3workspace) :
  name <$> l = name <$> l' -> wlist_sorted l = wlist_sorted l'.
Proof.
  revert l'. induction l as [|x l IH]; intros [|x' l'] H; try discriminate;
    [reflexivity|].
  injection H as Hx Hl. specialize (IH l' Hl).
  destruct l as [|y l], l' as [|y' l']; try discriminate; [reflexivity|].
  injection Hl as Hy _.
  change (wlist_sorted (x :: y :: l))
    with ((i3wm_workspace_cmp x y <=? 0) && wlist_sorted (y :: l)).
  change (wlist_sorted (x' :: y' :: l'))
    with ((i3wm_workspace_cmp x' y' <=? 0) && wlist_sorted (y' :: l')).
  unfold i3wm_workspace_cmp. now rewrite Hx, Hy, IH.
Qed.

(** Writing a flag of a workspace changes no name of the list. *)
Lemma names_insert_same (l : list i3workspace) (i : nat) (w w' : i3workspace) :
  l !! i = Some w -> name w' = name w ->
  name <$> <[i := w']> l = name <$> l.
Proof.
  intros Hi Hn. rewrite list_fmap_insert. apply list_insert_id.
  now rewrite list_lookup_fmap, Hi, Hn.
Qed.

Lemma wlist_fits_insert_same
    (l : list i3workspace) (i : nat) (w w' : i3workspace) :
  l !! i = Some w -> name w' = name w ->
  wlist_fits l -> wlist_fits (<[i := w']> l).
Proof.
  intros Hi Hn Hl. apply Forall_insert; [assumption|].
  rewrite Hn. exact (proj1 (Forall_lookup _ l) Hl i w Hi).
Qed.

(** The initial sort puts every snapshot in order. *)
Lemma init_workspaces_sorted (i3wm i3wm' : i3windowManager) (r : fetched) :
  init_workspaces i3wm r = (i3wm', None) ->
  wlist_sorted (wlist i3wm') = true.
Proof.
  unfold init_workspaces. destruct r as [replies|e]; simpl; [|discriminate].
  intros [= <-]. simpl. apply wlist_sorted_Sorted, g_slist_sort_Sorted.
  exact i3wm_workspace_cmp_total.
Qed.

Lemma prepend_all (replies : list i3ipcWorkspaceReply) (l : list i3workspace) :
  fold_left (fun l wreply => g_slist_prepend l (create_workspace wreply))
            replies l
  = rev (create_workspace <$> replies) ++ l.
Proof.
  revert l. induction replies as [|t replies IH]; intros l; simpl;
    [reflexivity|].
  rewrite IH. unfold g_slist_prepend. now rewrite <- app_assoc.
Qed.

(** The list a new delegate gets: the workspaces of the snapshot, sorted. *)
Lemma init_workspaces_new (replies : list i3ipcWorkspaceReply) :
  init_workspaces new_i3wm (Fetched replies)
  = (with_wlist new_i3wm
       (g_slist_sort (create_workspace <$> replies) i3wm_workspace_cmp),
     None).
Proof.
  unfold init_workspaces. simpl. rewrite prepend_all.
  unfold g_slist_reverse. now rewrite app_nil_r, rev_involutive.
Qed.

Lemma init_workspaces_Permutation (replies : list i3ipcWorkspaceReply) :
  wlist (fst (init_workspaces new_i3wm (Fetched replies)))
  ≡ₚ create_workspace <$> replies.
Proof.
  rewrite init_workspaces_new. simpl. apply g_slist_sort_Permutation.
Qed.

(** What the loops leave in their variables comes from the list scanned. *)
Lemma on_init_workspace_loop_elem
    (ours : list i3workspace) (witem : list i3ipcWorkspaceReply)
    (wreply : option i3ipcWorkspaceReply) (t : i3ipcWorkspaceReply) :
  on_init_workspace_loop ours witem wreply = Some t ->
  t ∈ witem \/ wreply = Some t.
Proof.
  revert wreply. induction witem as [|w next IH]; intros wreply; simpl.
  - now right.
  - destruct (g_slist_find_custom ours (reply_name w) workspace_str_cmp).
    + intros [H|[= ->]]%IH; left; [now right | now left].
    + intros [= ->]. left. now left.
Qed.

Lemma on_move_workspace_loop_elem
    (ours : list i3workspace) (witem : list i3ipcWorkspaceReply)
    vars (t : i3ipcWorkspaceReply) (pos : nat) (w : i3workspace) :
  on_move_workspace_loop ours witem vars = Exit (Some (t, (pos, w))) ->
  t ∈ witem \/ vars = Some (t, (pos, w)).
Proof.
  revert vars. induction witem as [|wtheir next IH]; intros vars; simpl.
  - intros [= ->]. now right.
  - destruct (g_slist_find_custom ours (reply_name wtheir) workspace_str_cmp)
      as [[p wour]|]; [|discriminate].
    destruct (negb _).
    + intros [= -> -> ->]. left. now left.
    + intros [H|[= -> -> ->]]%IH; left; [now right | now left].
Qed.

Lemma on_urgent_workspace_loop_found
    (ours : list i3workspace) (witem : list i3ipcWorkspaceReply)
    vars (t : i3ipcWorkspaceReply) (pos : nat) (w : i3workspace) :
  on_urgent_workspace_loop ours witem vars = Exit (Some (t, (pos, w))) ->
  ours !! pos = Some w \/ vars = Some (t, (pos, w)).
Proof.
  revert vars. induction witem as [|wtheir next IH]; intros vars; simpl.
  - intros [= ->]. now right.
  - destruct (g_slist_find_custom ours (reply_name wtheir) workspace_str_cmp)
      as [[p wour]|] eqn:Hf; [|discriminate].
    apply g_slist_find_custom_Some in Hf as (Hp & _).
    destruct (negb _).
    + intros [= -> -> ->]. now left.
    + intros [H|[= -> -> ->]]%IH; now left.
Qed.

Lemma insert_sorted_in_order (i3wm : i3windowManager) (w : i3workspace) :
  in_order i3wm -> fits_gint (name w) ->
  in_order (with_wlist i3wm
              (g_slist_insert_sorted (wlist i3wm) w i3wm_workspace_cmp)).
Proof.
  intros [Hs Hf] Hw. split; simpl.
  - apply wlist_sorted_Sorted, g_slist_insert_sorted_Sorted;
      [exact i3wm_workspace_cmp_total | now apply wlist_sorted_Sorted].
  - unfold wlist_fits.
    rewrite (g_slist_insert_sorted_Permutation i3wm_workspace_cmp).
    now constructor.
Qed.

Lemma remove_in_order (i3wm : i3windowManager) (pos : nat) :
  in_order i3wm -> in_order (with_wlist i3wm (g_slist_remove (wlist i3wm) pos)).
Proof.
  intros [Hs Hf]. split; simpl.
  - apply wlist_sorted_Sorted.
    apply (g_slist_remove_Sorted i3wm_workspace_cmp
             (fun w => fits_gint (name w)));
      [|assumption|now apply wlist_sorted_Sorted].
    intros a b c Fa Fb Fc. now apply workspace_name_cmp_trans.
  - now apply Forall_delete.
Qed.

Lemma insert_same_in_order
    (i3wm : i3windowManager) (i : nat) (w w' : i3workspace) :
  wlist i3wm !! i = Some w -> name w' = name w ->
  in_order i3wm -> in_order (with_wlist i3wm (<[i := w']> (wlist i3wm))).
Proof.
  intros Hi Hn [Hs Hf]. split; simpl.
  - rewrite <- Hs. apply wlist_sorted_names. now apply (names_insert_same _ _ w).
  - now apply (wlist_fits_insert_same _ _ w).
Qed.

Lemma with_wlist_with_wlist (i3wm : i3windowManager) (l l' : list i3workspace) :
  with_wlist (with_wlist i3wm l) l' = with_wlist i3wm l'.
Proof. reflexivity. Qed.

Lemma on_focus_workspace_in_order
    (i3wm i3wm' : i3windowManager) (current old : string) calls :
  in_order i3wm -> on_focus_workspace i3wm current old = Done i3wm' calls ->
  in_order i3wm'.
Proof.
  intros Hin. unfold on_focus_workspace.
  destruct (g_slist_find_custom (wlist i3wm) old workspace_str_cmp)
    as [[i wo]|] eqn:Ho.
  - apply g_slist_find_custom_Some in Ho as (Hi & _).
    pose proof (insert_same_in_order i3wm i wo (with_focused wo false)
                  Hi eq_refl Hin) as Hin1.
    destruct (g_slist_find_custom _ current workspace_str_cmp)
      as [[j w]|] eqn:Hc; [|discriminate].
    apply g_slist_find_custom_Some in Hc as (Hj & _).
    intros [= <- _].
    rewrite <- (with_wlist_with_wlist i3wm
                  (<[i := with_focused wo false]> (wlist i3wm))).
    exact (insert_same_in_order
             (with_wlist i3wm (<[i := with_focused wo false]> (wlist i3wm)))
             j w (with_focused w true) Hj eq_refl Hin1).
  - destruct (g_slist_find_custom _ current workspace_str_cmp)
      as [[j w]|] eqn:Hc; [|discriminate].
    apply g_slist_find_custom_Some in Hc as (Hj & _).
    intros [= <- _]. now apply (insert_same_in_order _ j w).
Qed.

Lemma on_urgent_workspace_in_order
    (i3wm i3wm' : i3windowManager) (r : fetched) calls :
  in_order i3wm -> on_urgent_workspace i3wm r = Done i3wm' calls ->
  in_order i3wm'.
Proof.
  intros Hin. unfold on_urgent_workspace.
  destruct (on_urgent_workspace_loop _ _ _) as [[[t [pos w]]|]|] eqn:Hl;
    try discriminate.
  apply on_urgent_workspace_loop_found in Hl as [Hpos|]; [|discriminate].
  intros [= <- _]. now apply (insert_same_in_order _ pos w).
Qed.

Lemma on_init_workspace_in_order
    (i3wm i3wm' : i3windowManager) (r : fetched) calls :
  in_order i3wm -> fetched_fits r ->
  on_init_workspace i3wm r = Done i3wm' calls -> in_order i3wm'.
Proof.
  intros Hin Hr. unfold on_init_workspace.
  destruct (on_init_workspace_loop _ _ _) as [t|] eqn:Hl; [|discriminate].
  apply on_init_workspace_loop_elem in Hl as [Ht|]; [|discriminate].
  intros [= <- _]. apply insert_sorted_in_order; [assumption|].
  exact (proj1 (Forall_forall _ _) Hr t Ht).
Qed.

Lemma on_empty_workspace_in_order
    (i3wm i3wm' : i3windowManager) (r : fetched) calls :
  in_order i3wm -> on_empty_workspace i3wm r = Done i3wm' calls ->
  in_order i3wm'.
Proof.
  intros Hin. unfold on_empty_workspace.
  destruct (on_empty_workspace_loop _ _ _ _) as [[pos w]|]; [|discriminate].
  intros [= <- _]. now apply remove_in_order.
Qed.

Lemma on_move_workspace_in_order
    (i3wm i3wm' : i3windowManager) (r : fetched) calls :
  in_order i3wm -> fetched_fits r ->
  on_move_workspace i3wm r = Done i3wm' calls -> in_order i3wm'.
Proof.
  intros Hin Hr. unfold on_move_workspace.
  destruct (on_move_workspace_loop _ _ _) as [[[t [pos w]]|]|] eqn:Hl;
    try discriminate.
  apply on_move_workspace_loop_elem in Hl as [Ht|]; [|discriminate].
  intros [= <- _].
  rewrite <- (with_wlist_with_wlist i3wm (g_slist_remove (wlist i3wm) pos)).
  apply (insert_sorted_in_order
           (with_wlist i3wm (g_slist_remove (wlist i3wm) pos))).
  - now apply remove_in_order.
  - exact (proj1 (Forall_forall _ _) Hr t Ht).
Qed.

Lemma on_rename_workspace_in_order
    (i3wm i3wm' : i3windowManager) (r1 r2 : fetched) calls :
  in_order i3wm -> fetched_fits r1 ->
  on_rename_workspace i3wm r1 r2 = Done i3wm' calls -> in_order i3wm'.
Proof.
  intros Hin Hr. unfold on_rename_workspace.
  destruct (on_init_workspace i3wm r1) as [i3wm1 calls1|] eqn:H1;
    [|discriminate].
  destruct (on_empty_workspace i3wm1 r2) as [i3wm2 calls2|] eqn:H2;
    [|discriminate].
  intros [= <- _].
  eapply on_empty_workspace_in_order; [|exact H2].
  eapply on_init_workspace_in_order; eassumption.
Qed.

(** The list a new delegate gets is in order, and every event whose names
    fit a [gint] leaves it in order. *)
Lemma i3wm_construct_in_order
    (connect_err subscribe_err : option GError) (r : fetched)
    (i3wm : i3windowManager) :
  fetched_fits r ->
  i3wm_construct connect_err r subscribe_err = inr i3wm -> in_order i3wm.
Proof.
  intros Hr. unfold i3wm_construct.
  destruct connect_err; [discriminate|].
  destruct r as [replies|e]; [|discriminate].
  rewrite init_workspaces_new.
  destruct subscribe_err; [discriminate|]. intros [= <-]. split; simpl.
  - apply wlist_sorted_Sorted, g_slist_sort_Sorted.
    exact i3wm_workspace_cmp_total.
  - unfold wlist_fits.
    rewrite (g_slist_sort_Permutation i3wm_workspace_cmp).
    now apply Forall_fmap.
Qed.

(** X3: an event that ends leaves the workspace list in order, with names
    whose numbers fit a [gint], when it met the list so and the names of the
    snapshot it fetched fit a [gint] too. *)
Lemma on_workspace_event_in_order
    (i3wm i3wm' : i3windowManager) (change current old : string)
    (r1 r2 : fetched) calls :
  in_order i3wm -> fetched_fits r1 ->
  on_workspace_event i3wm change current old r1 r2 = Done i3wm' calls ->
  in_order i3wm'.
Proof.
  intros Hin Hr. unfold on_workspace_event.
  repeat match goal with |- context [if ?c then _ else _] => destruct c end;
    eauto using on_focus_workspace_in_order, on_init_workspace_in_order,
      on_empty_workspace_in_order, on_urgent_workspace_in_order,
      on_rename_workspace_in_order, on_move_workspace_in_order.
  now intros [= <- _].
Qed.

(** C10, on the code: the workspaces "0", "2147483648" and "1" are read and
    sorted into that very order, which is in order for the comparator; when
    "2147483648" goes, the empty handler leaves "0" before "1", which the
    comparator orders the other way round. *)
Theorem order_lost_far_apart :
  exists i3wm i3wm',
    i3wm_construct None (Fetched far_apart) None = inr i3wm
    /\ name <$> wlist i3wm = ["0"; "2147483648"; "1"]
    /\ wlist_sorted (wlist i3wm) = true
    /\ on_empty_workspace i3wm (Fetched far_apart_emptied) = Done i3wm' []
    /\ name <$> wlist i3wm' = ["0"; "1"]
    /\ wlist_sorted (wlist i3wm') = false.
Proof.
  eexists _, _. split; [reflexivity|]. repeat split.
Qed.

(** * Further properties of the delegate *)

(** ** Construction *)

(** X1: [i3wm_construct] gives no delegate when opening the connection,
    reading the workspaces or subscribing fails, the first error met being
    the one returned; otherwise the delegate has no callback set and its list
    is the snapshot's workspaces, sorted. *)
Theorem i3wm_construct_result
    (connect_err subscribe_err : option GError) (r : fetched) :
  i3wm_construct connect_err r subscribe_err
  = match connect_err, r, subscribe_err with
    | Some e, _, _ => inl e
    | None, FetchFailed e, _ => inl e
    | None, Fetched _, Some e => inl e
    | None, Fetched replies, None =>
        inr (with_wlist new_i3wm
               (g_slist_sort (create_workspace <$> replies)
                             i3wm_workspace_cmp))
    end.
Proof.
  unfold i3wm_construct. destruct connect_err; [reflexivity|].
  destruct r as [replies|e]; [|reflexivity].
  rewrite init_workspaces_new. now destruct subscribe_err.
Qed.

(** X2: the list of a delegate just constructed holds exactly the workspaces
    of the snapshot, each once per reply, in an order in which no workspace
    compares greater than its successor, whatever the names; and no callback
    is called before one is set. *)
Theorem i3wm_construct_list
    (connect_err subscribe_err : option GError)
    (replies : list i3ipcWorkspaceReply) (i3wm : i3windowManager) :
  i3wm_construct connect_err (Fetched replies) subscribe_err = inr i3wm ->
  wlist i3wm ≡ₚ create_workspace <$> replies
  /\ wlist_sorted (wlist i3wm) = true
  /\ forall w,
       invoke_callback (on_workspace_created i3wm) w = []
       /\ invoke_callback (on_workspace_destroyed i3wm) w = []
       /\ invoke_callback (on_workspace_blurred i3wm) w = []
       /\ invoke_callback (on_workspace_focused i3wm) w = []
       /\ invoke_callback (on_workspace_urgent i3wm) w = []
       /\ on_ipc_shutdown_proxy i3wm = [].
Proof.
  rewrite i3wm_construct_result.
  destruct connect_err; [discriminate|].
  destruct subscribe_err; [discriminate|]. intros [= <-]. simpl.
  split; [apply g_slist_sort_Permutation|]. split.
  - apply wlist_sorted_Sorted, g_slist_sort_Sorted.
    exact i3wm_workspace_cmp_total.
  - intros w. repeat split.
Qed.

Lemma i3wm_construct_list_witness :
  i3wm_construct None (Fetched unchanged) None
  = inr (with_wlist new_i3wm [sample_workspace "2" false false "LVDS1";
                              sample_workspace "1" false false "LVDS1"])
  /\ wlist_sorted [sample_workspace "2" false false "LVDS1";
                   sample_workspace "1" false false "LVDS1"] = true.
Proof.
  split; [reflexivity|].
  exact (proj1 (proj2 (i3wm_construct_list None None unchanged
                         (with_wlist new_i3wm
                            [sample_workspace "2" false false "LVDS1";
                             sample_workspace "1" false false "LVDS1"])
                         eq_refl))).
Defined.

(** ** The order of the list, event after event *)

Lemma on_workspace_event_in_order_witness :
  in_order move_i3wm /\ fetched_fits (Fetched appeared)
  /\ on_workspace_event move_i3wm "init" "" "" (Fetched appeared) (Fetched [])
     = Done (with_wlist move_i3wm
               [sample_workspace "3" false false "LVDS1";
                sample_workspace "2" false false "LVDS1";
                sample_workspace "1" false false "LVDS1"])
            [Call 101 (sample_workspace "3" false false "LVDS1") 11]
  /\ in_order (with_wlist move_i3wm
                 [sample_workspace "3" false false "LVDS1";
                  sample_workspace "2" false false "LVDS1";
                  sample_workspace "1" false false "LVDS1"]).
Proof.
  assert (Hin : in_order move_i3wm).
  { split; [reflexivity|]. repeat constructor. }
  assert (Hfit : fetched_fits (Fetched appeared)) by repeat constructor.
  split; [exact Hin|]. split; [exact Hfit|]. split; [reflexivity|].
  exact (on_workspace_event_in_order move_i3wm _ "init" "" ""
           (Fetched appeared) (Fetched []) _ Hin Hfit eq_refl).
Defined.

(** ** Names and numbers *)

Lemma digit_char_facts (d : nat) :
  (d < 10)%nat ->
  byte_val (digit_char d) = 48 + Z.of_nat d
  /\ isdigit (digit_char d) = true
  /\ isspace (digit_char d) = false
  /\ take_sign (String (digit_char d) EmptyString)
     = (false, String (digit_char d) EmptyString, O).
Proof.
  intros Hd.
  do 10 (destruct d as [|d]; [repeat split|]). lia.
Qed.

Lemma take_sign_digit (d : nat) (s : string) :
  (d < 10)%nat ->
  take_sign (String (digit_char d) s) = (false, String (digit_char d) s, O).
Proof.
  intros Hd. do 10 (destruct d as [|d]; [reflexivity|]). lia.
Qed.

Lemma take_digits_digits (ds : list nat) (rest : string) (acc : Z) :
  Forall (fun d => (d < 10)%nat) ds -> no_digit_ahead rest ->
  take_digits acc (String.append (digits_string ds) rest)
  = (fold_left (fun a d => 10 * a + Z.of_nat d) ds acc, length ds).
Proof.
  intros Hds Hrest. revert acc.
  induction Hds as [|d ds Hd _ IH]; intros acc.
  - change (take_digits acc rest = (acc, O)).
    destruct rest as [|c rest]; [reflexivity|].
    cbn [no_digit_ahead] in Hrest. cbn [take_digits]. now rewrite Hrest.
  - change (take_digits acc
              (String (digit_char d) (String.append (digits_string ds) rest))
            = (fold_left (fun a d => 10 * a + Z.of_nat d) ds
                         (10 * acc + Z.of_nat d), S (length ds))).
    destruct (digit_char_facts d Hd) as (Hv & Hdig & _).
    cbn [take_digits]. rewrite Hdig, IH, Hv. do 2 f_equal. lia.
Qed.

Lemma digits_fold_nonneg (ds : list nat) (acc : Z) :
  0 <= acc -> 0 <= fold_left (fun a d => 10 * a + Z.of_nat d) ds acc.
Proof.
  revert acc. induction ds as [|d ds IH]; intros acc Hacc; simpl;
    [assumption|].
  apply IH. lia.
Qed.

Lemma ws_name_to_number_of_digits (ds : list nat) (rest : string) :
  Forall (fun d => (d < 10)%nat) ds -> ds <> [] -> no_digit_ahead rest ->
  ws_name_to_number (String.append (digits_string ds) rest)
  = if digits_value ds <? LONG_MAX then digits_value ds else -1.
Proof.
  intros Hds Hne Hrest. destruct ds as [|d ds]; [contradiction|].
  pose proof (take_digits_digits (d :: ds) rest 0 Hds Hrest) as Htake.
  pose proof (digits_fold_nonneg (d :: ds) 0 ltac:(lia)) as Hpos.
  fold (digits_value (d :: ds)) in Htake, Hpos.
  inversion Hds as [|? ? Hd _]; subst.
  destruct (digit_char_facts d Hd) as (_ & _ & Hsp & _).
  unfold ws_name_to_number, strtol.
  change (String.append (digits_string (d :: ds)) rest)
    with (String (digit_char d) (String.append (digits_string ds) rest))
    in *.
  cbn [skip_space]. rewrite Hsp, take_sign_digit, Htake by assumption.
  cbn [length]. unfold clamp_long.
  destruct (Z.ltb_spec (digits_value (d :: ds)) LONG_MIN) as [Hlt|_];
    [unfold LONG_MIN in Hlt; lia|].
  destruct (Z.ltb_spec LONG_MAX (digits_value (d :: ds))) as [Hgt|Hle].
  - destruct (Z.ltb_spec (digits_value (d :: ds)) LONG_MAX); [lia|].
    reflexivity.
  - destruct (Z.ltb_spec (digits_value (d :: ds)) LONG_MAX) as [Hlt|Hge].
    + destruct (Z.eqb_spec (digits_value (d :: ds)) LONG_MIN) as [E|_];
        [unfold LONG_MIN in E; lia|].
      destruct (Z.eqb_spec (digits_value (d :: ds)) LONG_MAX); [lia|].
      destruct (Z.ltb_spec (digits_value (d :: ds)) 0); [lia|].
      reflexivity.
    + assert (E : digits_value (d :: ds) = LONG_MAX) by lia.
      rewrite E. reflexivity.
Qed.

(** X4: a name that begins with decimal digits has the number the digits
    spell, whatever follows the digits, as long as the number is below
    [LONG_MAX]: it is numeric; from [LONG_MAX] on the name is a named one. *)
Theorem ws_name_to_number_digits (ds : list nat) (rest : string) :
  Forall (fun d => (d < 10)%nat) ds -> ds <> [] -> no_digit_ahead rest ->
  ws_name_to_number (String.append (digits_string ds) rest)
  = (if digits_value ds <? LONG_MAX then digits_value ds else -1)
  /\ is_numeric (String.append (digits_string ds) rest)
     = (digits_value ds <? LONG_MAX)
  /\ is_named (String.append (digits_string ds) rest)
     = negb (digits_value ds <? LONG_MAX).
Proof.
  intros Hds Hne Hrest.
  pose proof (ws_name_to_number_of_digits ds rest Hds Hne Hrest) as E.
  pose proof (digits_fold_nonneg ds 0 ltac:(lia)) as Hpos.
  fold (digits_value ds) in Hpos.
  split; [exact E|]. unfold is_numeric, is_named. rewrite E.
  destruct (digits_value ds <? LONG_MAX); [|now split].
  destruct (Z.eqb_spec (digits_value ds) (-1)); [lia|now split].
Qed.

Lemma ws_name_to_number_digits_witness :
  Forall (fun d => (d < 10)%nat) [1; 0]%nat /\ [1; 0]%nat <> []
  /\ no_digit_ahead ":web"
  /\ ws_name_to_number "10:web" = 10.
Proof.
  assert (H1 : Forall (fun d => (d < 10)%nat) [1; 0]%nat)
    by (repeat constructor).
  assert (H2 : [1; 0]%nat <> []) by discriminate.
  assert (H3 : no_digit_ahead ":web") by reflexivity.
  split; [exact H1|]. split; [exact H2|]. split; [exact H3|].
  exact (proj1 (ws_name_to_number_digits [1; 0]%nat ":web" H1 H2 H3)).
Defined.

(** X5: white space before a name does not change its number. *)
Theorem ws_name_to_number_space (c : ascii) (s : string) :
  isspace c = true -> ws_name_to_number (String c s) = ws_name_to_number s.
Proof.
  intros Hc. unfold ws_name_to_number, strtol. cbn [skip_space]. rewrite Hc.
  destruct (skip_space s) as [s1 k1].
  destruct (take_sign s1) as [[neg s2] k2].
  destruct (take_digits 0 s2) as [v k3].
  destruct k3 as [|k3]; [reflexivity|].
  replace (S k1 + k2 + S k3)%nat with (S (k1 + k2 + S k3)) by lia.
  cbn [Nat.eqb].
  destruct (Nat.eqb_spec (k1 + k2 + S k3) 0) as [E|_]; [lia|reflexivity].
Qed.

Lemma ws_name_to_number_space_witness :
  isspace " " = true
  /\ ws_name_to_number " 7" = ws_name_to_number "7"
  /\ workspace_name_cmp " 7" "7" = 0.
Proof.
  split; [reflexivity|].
  split; [exact (ws_name_to_number_space " " "7" eq_refl)|reflexivity].
Defined.

(** X6: two names that begin with decimal digits spelling numbers below 2^31
    compare as the second number minus the first, whatever follows the
    digits: the greater number comes first in the list, and two spellings of
    one number compare equal. *)
Theorem workspace_name_cmp_digits (da db : list nat) (ra rb : string) :
  Forall (fun d => (d < 10)%nat) da -> da <> [] -> no_digit_ahead ra ->
  Forall (fun d => (d < 10)%nat) db -> db <> [] -> no_digit_ahead rb ->
  digits_value da < 2 ^ 31 -> digits_value db < 2 ^ 31 ->
  workspace_name_cmp (String.append (digits_string da) ra)
                     (String.append (digits_string db) rb)
  = digits_value db - digits_value da.
Proof.
  intros Ha Hna Hra Hb Hnb Hrb Hva Hvb.
  pose proof (ws_name_to_number_of_digits da ra Ha Hna Hra) as Ea.
  pose proof (ws_name_to_number_of_digits db rb Hb Hnb Hrb) as Eb.
  pose proof (digits_fold_nonneg da 0 ltac:(lia)) as Pa.
  pose proof (digits_fold_nonneg db 0 ltac:(lia)) as Pb.
  fold (digits_value da) in Pa. fold (digits_value db) in Pb.
  destruct (Z.ltb_spec (digits_value da) LONG_MAX) as [_|Ha'];
    [|unfold LONG_MAX in Ha'; lia].
  destruct (Z.ltb_spec (digits_value db) LONG_MAX) as [_|Hb'];
    [|unfold LONG_MAX in Hb'; lia].
  rewrite workspace_name_cmp_fits.
  - now rewrite Ea, Eb.
  - unfold is_numeric. rewrite Ea.
    destruct (Z.eqb_spec (digits_value da) (-1)); [lia|reflexivity].
  - unfold is_numeric. rewrite Eb.
    destruct (Z.eqb_spec (digits_value db) (-1)); [lia|reflexivity].
  - unfold fits_gint. now rewrite Ea.
  - unfold fits_gint. now rewrite Eb.
Qed.

Lemma workspace_name_cmp_digits_witness :
  workspace_name_cmp "10:web" "2" = 2 - 10.
Proof.
  refine (workspace_name_cmp_digits [1; 0]%nat [2]%nat ":web" "" _ _ _ _ _ _ _ _);
    try (repeat constructor); try discriminate; reflexivity.
Defined.

Lemma ws_name_to_number_plain (s : string) :
  starts_plain s -> ws_name_to_number s = -1.
Proof.
  destruct s as [|c s]; [reflexivity|].
  intros (Hsp & Hdig & Hm & Hp).
  unfold ws_name_to_number, strtol. cbn [skip_space]. rewrite Hsp.
  assert (Hsign : take_sign (String c s) = (false, String c s, O)).
  { unfold take_sign.
    destruct c as [[] [] [] [] [] [] [] []]; try reflexivity; contradiction. }
  rewrite Hsign. cbn [take_digits]. now rewrite Hdig.
Qed.

(** X7: two names that begin with neither white space, a sign nor a digit
    compare by their bytes, the greater string first: the result is that of
    [strcmp] with the arguments exchanged, it is 0 for equal names only, and
    exchanging the names turns a negative result into a positive one and a
    positive one into a negative one. *)
Theorem workspace_name_cmp_plain (a b : string) :
  starts_plain a -> starts_plain b ->
  workspace_name_cmp a b = strcmp b a
  /\ (workspace_name_cmp a b = 0 <-> a = b)
  /\ (workspace_name_cmp b a < 0 <-> 0 < workspace_name_cmp a b)
  /\ (0 < workspace_name_cmp b a <-> workspace_name_cmp a b < 0).
Proof.
  intros Ha%ws_name_to_number_plain Hb%ws_name_to_number_plain.
  assert (Na : is_named a = true) by (unfold is_named; now rewrite Ha).
  assert (Nb : is_named b = true) by (unfold is_named; now rewrite Hb).
  rewrite !workspace_name_cmp_named by assumption. split; [reflexivity|].
  split.
  - split; [intros H%strcmp_eq; now symmetry | intros ->; apply strcmp_refl].
  - rewrite (strcmp_antisym b a). lia.
Qed.

Lemma workspace_name_cmp_plain_witness :
  starts_plain "mail" /\ starts_plain "web"
  /\ workspace_name_cmp "mail" "web" = strcmp "web" "mail"
  /\ (workspace_name_cmp "web" "mail" < 0
      <-> 0 < workspace_name_cmp "mail" "web").
Proof.
  assert (Ha : starts_plain "mail") by (repeat split; discriminate).
  assert (Hb : starts_plain "web") by (repeat split; discriminate).
  pose proof (workspace_name_cmp_plain "mail" "web" Ha Hb)
    as (H1 & _ & H3 & _).
  split; [exact Ha|]. split; [exact Hb|]. split; assumption.
Defined.

Lemma workspace_name_cmp_sign (a b : string) :
  fits_gint a -> fits_gint b ->
  (workspace_name_cmp b a < 0 <-> 0 < workspace_name_cmp a b)
  /\ (workspace_name_cmp b a = 0 <-> workspace_name_cmp a b = 0).
Proof.
  intros Fa Fb.
  destruct (numeric_or_named a) as [Ha|Ha], (numeric_or_named b) as [Hb|Hb].
  - rewrite !workspace_name_cmp_fits by assumption. lia.
  - rewrite (workspace_name_cmp_named_numeric b a),
      (workspace_name_cmp_numeric_named a b) by assumption. lia.
  - rewrite (workspace_name_cmp_named_numeric a b),
      (workspace_name_cmp_numeric_named b a) by assumption. lia.
  - rewrite !workspace_name_cmp_named by assumption.
    rewrite (strcmp_antisym b a). lia.
Qed.

(** X8: on names whose numbers are below 2^31 the comparator is an order:
    a name compares equal to itself, exchanging two names turns "before"
    into "after" and keeps "equal", and "not after" is transitive. *)
Theorem workspace_name_cmp_order (a b c : string) :
  fits_gint a -> fits_gint b -> fits_gint c ->
  workspace_name_cmp a a = 0
  /\ (workspace_name_cmp b a < 0 <-> 0 < workspace_name_cmp a b)
  /\ (workspace_name_cmp b a = 0 <-> workspace_name_cmp a b = 0)
  /\ (workspace_name_cmp a b <= 0 -> workspace_name_cmp b c <= 0 ->
      workspace_name_cmp a c <= 0).
Proof.
  intros Fa Fb Fc. split; [apply workspace_name_cmp_refl|].
  destruct (workspace_name_cmp_sign a b Fa Fb) as [Hlt Heq].
  split; [exact Hlt|]. split; [exact Heq|].
  now apply workspace_name_cmp_trans.
Qed.

Lemma workspace_name_cmp_order_witness :
  fits_gint "web" /\ fits_gint "10" /\ fits_gint "2"
  /\ (workspace_name_cmp "10" "web" < 0 <-> 0 < workspace_name_cmp "web" "10")
  /\ workspace_name_cmp "web" "2" <= 0.
Proof.
  assert (Fa : fits_gint "web") by reflexivity.
  assert (Fb : fits_gint "10") by reflexivity.
  assert (Fc : fits_gint "2") by reflexivity.
  pose proof (workspace_name_cmp_order "web" "10" "2" Fa Fb Fc)
    as (_ & Hsign & _ & Htrans).
  split; [exact Fa|]. split; [exact Fb|]. split; [exact Fc|].
  split; [exact Hsign|].
  apply Htrans; vm_compute; discriminate.
Defined.

(** ** What the handlers leave alone *)

Lemma handlers_with_wlist (i3wm i3wm' : i3windowManager) calls :
  (forall current old,
     on_focus_workspace i3wm current old = Done i3wm' calls ->
     exists l, i3wm' = with_wlist i3wm l)
  /\ (forall r, on_init_workspace i3wm r = Done i3wm' calls ->
      exists l, i3wm' = with_wlist i3wm l)
  /\ (forall r, on_empty_workspace i3wm r = Done i3wm' calls ->
      exists l, i3wm' = with_wlist i3wm l)
  /\ (forall r, on_urgent_workspace i3wm r = Done i3wm' calls ->
      exists l, i3wm' = with_wlist i3wm l)
  /\ (forall r, on_move_workspace i3wm r = Done i3wm' calls ->
      exists l, i3wm' = with_wlist i3wm l).
Proof.
  repeat split.
  - intros current old. unfold on_focus_workspace.
    destruct (g_slist_find_custom (wlist i3wm) old workspace_str_cmp)
      as [[i wo]|];
      destruct (g_slist_find_custom _ current workspace_str_cmp) as [[j w]|];
      try discriminate; intros [= <- _]; eauto.
  - intros r. unfold on_init_workspace.
    destruct (on_init_workspace_loop _ _ _); [|discriminate].
    intros [= <- _]; eauto.
  - intros r. unfold on_empty_workspace.
    destruct (on_empty_workspace_loop _ _ _ _) as [[pos w]|]; [|discriminate].
    intros [= <- _]; eauto.
  - intros r. unfold on_urgent_workspace.
    destruct (on_urgent_workspace_loop _ _ _) as [[[t [pos w]]|]|];
      try discriminate.
    intros [= <- _]; eauto.
  - intros r. unfold on_move_workspace.
    destruct (on_move_workspace_loop _ _ _) as [[[t [pos w]]|]|];
      try discriminate.
    intros [= <- _]; eauto.
Qed.

Lemma on_workspace_event_with_wlist
    (i3wm i3wm' : i3windowManager) (change current old : string)
    (r1 r2 : fetched) calls :
  on_workspace_event i3wm change current old r1 r2 = Done i3wm' calls ->
  exists l, i3wm' = with_wlist i3wm l.
Proof.
  unfold on_workspace_event.
  repeat match goal with |- context [if ?c then _ else _] => destruct c end.
  - apply handlers_with_wlist.
  - apply handlers_with_wlist.
  - apply handlers_with_wlist.
  - apply handlers_with_wlist.
  - unfold on_rename_workspace.
    destruct (on_init_workspace i3wm r1) as [i3wm1 calls1|] eqn:H1;
      [|discriminate].
    destruct (on_empty_workspace i3wm1 r2) as [i3wm2 calls2|] eqn:H2;
      [|discriminate].
    intros [= <- _].
    apply handlers_with_wlist in H1 as [l1 ->].
    apply handlers_with_wlist in H2 as [l2 ->]. now exists l2.
  - apply handlers_with_wlist.
  - intros [= <- _]. exists (wlist i3wm). now destruct i3wm.
Qed.

(** X9: no event changes a callback slot or the shutdown callback: the
    delegate an event leaves differs from the one it met in its workspace
    list only. *)
Theorem on_workspace_event_keeps_callbacks
    (i3wm i3wm' : i3windowManager) (change current old : string)
    (r1 r2 : fetched) calls :
  on_workspace_event i3wm change current old r1 r2 = Done i3wm' calls ->
  i3wm' = with_wlist i3wm (wlist i3wm').
Proof.
  intros [l ->]%on_workspace_event_with_wlist. reflexivity.
Qed.

Lemma on_workspace_event_keeps_callbacks_witness :
  on_workspace_event move_i3wm "move" "" "" (Fetched moved_one) (Fetched [])
  = Done (with_wlist move_i3wm
            [sample_workspace "2" false false "LVDS1";
             sample_workspace "1" false false "HDMI1"])
         [Call 102 (sample_workspace "1" false false "LVDS1") 12;
          Call 101 (sample_workspace "1" false false "HDMI1") 11]
  /\ with_wlist move_i3wm
       [sample_workspace "2" false false "LVDS1";
        sample_workspace "1" false false "HDMI1"]
     = with_wlist move_i3wm
         (wlist (with_wlist move_i3wm
                   [sample_workspace "2" false false "LVDS1";
                    sample_workspace "1" false false "HDMI1"])).
Proof.
  split; [reflexivity|].
  exact (on_workspace_event_keeps_callbacks move_i3wm _ "move" "" ""
           (Fetched moved_one) (Fetched []) _ eq_refl).
Defined.

Lemma handlers_ignore_renamed (i3wm : i3windowManager) (f d : gpointer) :
  let set m := i3wm_set_on_workspace_renamed m f d in
  (forall current old,
     on_focus_workspace (set i3wm) current old
     = outcome_map set (on_focus_workspace i3wm current old))
  /\ (forall r, on_init_workspace (set i3wm) r
                = outcome_map set (on_init_workspace i3wm r))
  /\ (forall r, on_empty_workspace (set i3wm) r
                = outcome_map set (on_empty_workspace i3wm r))
  /\ (forall r, on_urgent_workspace (set i3wm) r
                = outcome_map set (on_urgent_workspace i3wm r))
  /\ (forall r, on_move_workspace (set i3wm) r
                = outcome_map set (on_move_workspace i3wm r)).
Proof.
  intros set. repeat split.
  - intros current old. unfold on_focus_workspace.
    change (wlist (set i3wm)) with (wlist i3wm).
    destruct (g_slist_find_custom (wlist i3wm) old workspace_str_cmp)
      as [[i wo]|];
      destruct (g_slist_find_custom _ current workspace_str_cmp) as [[j w]|];
      reflexivity.
  - intros r. unfold on_init_workspace.
    change (wlist (set i3wm)) with (wlist i3wm).
    now destruct (on_init_workspace_loop _ _ _).
  - intros r. unfold on_empty_workspace.
    change (wlist (set i3wm)) with (wlist i3wm).
    now destruct (on_empty_workspace_loop _ _ _ _) as [[pos w]|].
  - intros r. unfold on_urgent_workspace.
    change (wlist (set i3wm)) with (wlist i3wm).
    now destruct (on_urgent_workspace_loop _ _ _) as [[[t [pos w]]|]|].
  - intros r. unfold on_move_workspace.
    change (wlist (set i3wm)) with (wlist i3wm).
    now destruct (on_move_workspace_loop _ _ _) as [[[t [pos w]]|]|].
Qed.

(** X10: the renamed callback is never called: an event makes the same calls
    and leaves the same list whatever function and data the renamed slot
    holds (a rename is reported through the created and the destroyed
    callback). *)
Theorem on_workspace_event_ignores_renamed
    (i3wm : i3windowManager) (f d : gpointer) (change current old : string)
    (r1 r2 : fetched) :
  on_workspace_event (i3wm_set_on_workspace_renamed i3wm f d)
    change current old r1 r2
  = outcome_map (fun m => i3wm_set_on_workspace_renamed m f d)
      (on_workspace_event i3wm change current old r1 r2).
Proof.
  pose proof (handlers_ignore_renamed i3wm f d) as (Hf & Hi & He & Hu & Hm).
  cbv zeta in *. unfold on_workspace_event.
  repeat match goal with |- context [if ?c then _ else _] => destruct c end;
    auto.
  unfold on_rename_workspace. rewrite Hi.
  destruct (on_init_workspace i3wm r1) as [i3wm1 calls1|]; [|reflexivity].
  cbn [outcome_map].
  pose proof (handlers_ignore_renamed i3wm1 f d) as (_ & _ & He1 & _).
  cbv zeta in He1. rewrite He1.
  now destruct (on_empty_workspace i3wm1 r2).
Qed.

(** ** The paths of the handlers *)

(** X11: a focus event whose current name is not found in the list is
    undefined behaviour (the data of a NULL node is read), whether or not the
    old name is found. *)
Theorem on_focus_workspace_missing
    (i3wm : i3windowManager) (current old : string) :
  g_slist_find_custom (wlist i3wm) current workspace_str_cmp = None ->
  on_focus_workspace i3wm current old = Undefined.
Proof.
  intros Hc. unfold on_focus_workspace.
  destruct (g_slist_find_custom (wlist i3wm) old workspace_str_cmp)
    as [[i wo]|] eqn:Ho.
  - apply g_slist_find_custom_Some in Ho as (Hi & _).
    rewrite (g_slist_find_custom_insert workspace_str_cmp current
               (wlist i3wm) i wo (with_focused wo false) Hi eq_refl).
    now rewrite Hc.
  - now rewrite Hc.
Qed.

Lemma on_focus_workspace_missing_witness :
  g_slist_find_custom (wlist focus_i3wm) "__i3_scratch" workspace_str_cmp
  = None
  /\ on_focus_workspace focus_i3wm "__i3_scratch" "1" = Undefined.
Proof.
  split; [reflexivity|].
  exact (on_focus_workspace_missing focus_i3wm "__i3_scratch" "1" eq_refl).
Defined.

Lemma on_init_workspace_loop_first
    (ours : list i3workspace) (before after : list i3ipcWorkspaceReply)
    (t : i3ipcWorkspaceReply) wreply :
  Forall (fun v => g_slist_find_custom ours (reply_name v) workspace_str_cmp
                   <> None) before ->
  g_slist_find_custom ours (reply_name t) workspace_str_cmp = None ->
  on_init_workspace_loop ours (before ++ t :: after) wreply = Some t.
Proof.
  intros Hb Ht. revert wreply.
  induction Hb as [|v before Hv _ IH]; intros wreply; simpl.
  - now rewrite Ht.
  - destruct (g_slist_find_custom ours (reply_name v) workspace_str_cmp);
      [apply IH | contradiction].
Qed.

(** X12: when the snapshot has a name the lookup does not find in the list,
    the init handler makes a workspace from the first such reply, puts it
    into the list and invokes the created callback on it; nothing else in the
    list changes, a list in order stays in order whatever the names, and a
    lookup of the new name finds the new workspace. *)
Theorem on_init_workspace_first_new
    (i3wm : i3windowManager) (before after : list i3ipcWorkspaceReply)
    (t : i3ipcWorkspaceReply) :
  Forall (fun v => g_slist_find_custom (wlist i3wm) (reply_name v)
                     workspace_str_cmp <> None) before ->
  g_slist_find_custom (wlist i3wm) (reply_name t) workspace_str_cmp = None ->
  let w := create_workspace t in
  let l := g_slist_insert_sorted (wlist i3wm) w i3wm_workspace_cmp in
  on_init_workspace i3wm (Fetched (before ++ t :: after))
  = Done (with_wlist i3wm l) (invoke_callback (on_workspace_created i3wm) w)
  /\ l ≡ₚ w :: wlist i3wm
  /\ (wlist_sorted (wlist i3wm) = true -> wlist_sorted l = true)
  /\ exists q, g_slist_find_custom l (reply_name t) workspace_str_cmp
               = Some (q, w).
Proof.
  intros Hb Ht w l. split; [|split; [|split]].
  - unfold on_init_workspace. simpl.
    now rewrite (on_init_workspace_loop_first _ _ _ _ None Hb Ht).
  - apply g_slist_insert_sorted_Permutation.
  - intros Hs. apply wlist_sorted_Sorted, g_slist_insert_sorted_Sorted;
      [exact i3wm_workspace_cmp_total | now apply wlist_sorted_Sorted].
  - apply (g_slist_find_custom_insert_sorted (wlist i3wm) w).
Qed.

Lemma on_init_workspace_first_new_witness :
  on_init_workspace move_i3wm (Fetched appeared)
  = Done (with_wlist move_i3wm
            [sample_workspace "3" false false "LVDS1";
             sample_workspace "2" false false "LVDS1";
             sample_workspace "1" false false "LVDS1"])
         [Call 101 (sample_workspace "3" false false "LVDS1") 11].
Proof.
  refine (proj1 (on_init_workspace_first_new move_i3wm
                   [sample_reply "1" false false "LVDS1";
                    sample_reply "2" false false "LVDS1"] []
                   (sample_reply "3" false false "LVDS1") _ eq_refl)).
  repeat constructor; discriminate.
Defined.

Lemma on_empty_workspace_first_absent_witness :
  wlist move_i3wm
  = [] ++ sample_workspace "2" false false "LVDS1"
       :: [sample_workspace "1" false false "LVDS1"]
  /\ g_slist_find_custom gone "2" workspace_reply_str_cmp = None
  /\ on_empty_workspace move_i3wm (Fetched gone)
     = Done (with_wlist move_i3wm [sample_workspace "1" false false "LVDS1"])
            [Call 102 (sample_workspace "2" false false "LVDS1") 12].
Proof.
  split; [reflexivity|]. split; [reflexivity|].
  exact (on_empty_workspace_first_absent move_i3wm gone []
           [sample_workspace "1" false false "LVDS1"]
           (sample_workspace "2" false false "LVDS1")
           eq_refl (List.Forall_nil _) eq_refl).
Defined.

Lemma on_urgent_workspace_loop_first
    (ours : list i3workspace) (before after : list i3ipcWorkspaceReply)
    (wtheir : i3ipcWorkspaceReply) (pos : nat) (wour : i3workspace) vars :
  Forall (fun t => exists p w,
            g_slist_find_custom ours (reply_name t) workspace_str_cmp
            = Some (p, w) /\ urgent w = reply_urgent t) before ->
  g_slist_find_custom ours (reply_name wtheir) workspace_str_cmp
  = Some (pos, wour) ->
  urgent wour <> reply_urgent wtheir ->
  on_urgent_workspace_loop ours (before ++ wtheir :: after) vars
  = Exit (Some (wtheir, (pos, wour))).
Proof.
  intros Hb Hf Hne. revert vars.
  induction Hb as [|t before (p & w & Ht & Hu) _ IH]; intros vars; simpl.
  - rewrite Hf.
    destruct (reply_urgent wtheir), (urgent wour); try reflexivity;
      contradiction.
  - rewrite Ht, Hu, eqb_reflx. apply IH.
Qed.

(** X14: when a reply of the snapshot is the first one whose workspace,
    looked up by name, has another urgent flag, the urgent handler copies the
    flag of the reply into that workspace and invokes the urgent callback on
    it; no other workspace and no other field is written. *)
Theorem on_urgent_workspace_first_mismatch
    (i3wm : i3windowManager) (before after : list i3ipcWorkspaceReply)
    (wtheir : i3ipcWorkspaceReply) (pos : nat) (w : i3workspace) :
  Forall (fun t => exists p v,
            g_slist_find_custom (wlist i3wm) (reply_name t) workspace_str_cmp
            = Some (p, v) /\ urgent v = reply_urgent t) before ->
  g_slist_find_custom (wlist i3wm) (reply_name wtheir) workspace_str_cmp
  = Some (pos, w) ->
  urgent w <> reply_urgent wtheir ->
  let wour := with_urgent w (reply_urgent wtheir) in
  let l := <[pos := wour]> (wlist i3wm) in
  on_urgent_workspace i3wm (Fetched (before ++ wtheir :: after))
  = Done (with_wlist i3wm l) (invoke_callback (on_workspace_urgent i3wm) wour)
  /\ l !! pos = Some wour
  /\ urgent wour = reply_urgent wtheir
  /\ (forall k, k <> pos -> l !! k = wlist i3wm !! k)
  /\ name wour = name w /\ focused wour = focused w /\ output wour = output w.
Proof.
  intros Hb Hf Hne wour l.
  pose proof (g_slist_find_custom_Some _ _ _ _ _ Hf) as (Hpos & _).
  split; [|split; [|split; [|split]]].
  - unfold on_urgent_workspace. simpl.
    now rewrite (on_urgent_workspace_loop_first _ _ _ _ _ _ None Hb Hf Hne).
  - apply list_lookup_insert_eq. eapply lookup_lt_Some, Hpos.
  - reflexivity.
  - intros k Hk. now apply list_lookup_insert_ne.
  - repeat split.
Qed.

Lemma on_urgent_workspace_first_mismatch_witness :
  on_urgent_workspace move_i3wm (Fetched became_urgent)
  = Done (with_wlist move_i3wm
            [sample_workspace "2" false false "LVDS1";
             sample_workspace "1" false true "LVDS1"])
         [Call 105 (sample_workspace "1" false true "LVDS1") 15].
Proof.
  refine (proj1 (on_urgent_workspace_first_mismatch move_i3wm
                   [sample_reply "2" false false "LVDS1"] []
                   (sample_reply "1" false true "LVDS1") 1%nat
                   (sample_workspace "1" false false "LVDS1") _ eq_refl _)).
  - repeat constructor.
    now exists O, (sample_workspace "2" false false "LVDS1").
  - discriminate.
Defined.

(** ** What an event does to the list as a whole *)

Lemma fmap_insert_same {B : Type} (f : i3workspace -> B)
    (l : list i3workspace) (i : nat) (w w' : i3workspace) :
  l !! i = Some w -> f w' = f w -> f <$> <[i := w']> l = f <$> l.
Proof.
  intros Hi Hf. rewrite list_fmap_insert. apply list_insert_id.
  now rewrite list_lookup_fmap, Hi, Hf.
Qed.

(** X15: a focus event that ends writes [focused] flags only: the names,
    numbers, urgent flags and outputs of the list, in their order, are what
    they were. *)
Theorem on_focus_workspace_keeps_list
    (i3wm i3wm' : i3windowManager) (current old : string) calls :
  on_focus_workspace i3wm current old = Done i3wm' calls ->
  name <$> wlist i3wm' = name <$> wlist i3wm
  /\ num <$> wlist i3wm' = num <$> wlist i3wm
  /\ urgent <$> wlist i3wm' = urgent <$> wlist i3wm
  /\ output <$> wlist i3wm' = output <$> wlist i3wm.
Proof.
  unfold on_focus_workspace.
  destruct (g_slist_find_custom (wlist i3wm) old workspace_str_cmp)
    as [[i wo]|] eqn:Ho;
    destruct (g_slist_find_custom _ current workspace_str_cmp)
      as [[j w]|] eqn:Hc; try discriminate; intros [= <- _]; simpl;
    apply g_slist_find_custom_Some in Hc as (Hj & _).
  - apply g_slist_find_custom_Some in Ho as (Hi & _).
    repeat split;
      rewrite (fmap_insert_same _ _ j w) by (assumption || reflexivity);
      now rewrite (fmap_insert_same _ _ i wo).
  - repeat split; now rewrite (fmap_insert_same _ _ j w).
Qed.

Lemma on_focus_workspace_keeps_list_witness :
  on_focus_workspace focus_i3wm "2" "1"
  = Done (with_wlist focus_i3wm
            [sample_workspace "2" true false "LVDS1";
             sample_workspace "1" false false "LVDS1"])
         [Call 103 (sample_workspace "1" false false "LVDS1") 14;
          Call 104 (sample_workspace "2" true false "LVDS1") 13]
  /\ name <$> [sample_workspace "2" true false "LVDS1";
               sample_workspace "1" false false "LVDS1"]
     = name <$> wlist focus_i3wm.
Proof.
  split; [reflexivity|].
  exact (proj1 (on_focus_workspace_keeps_list focus_i3wm _ "2" "1" _ eq_refl)).
Defined.

(** X16: an urgent event that ends writes one [urgent] flag at most: the
    names, numbers, focused flags and outputs of the list, in their order,
    are what they were. *)
Theorem on_urgent_workspace_keeps_list
    (i3wm i3wm' : i3windowManager) (r : fetched) calls :
  on_urgent_workspace i3wm r = Done i3wm' calls ->
  name <$> wlist i3wm' = name <$> wlist i3wm
  /\ num <$> wlist i3wm' = num <$> wlist i3wm
  /\ focused <$> wlist i3wm' = focused <$> wlist i3wm
  /\ output <$> wlist i3wm' = output <$> wlist i3wm
  /\ exists pos, forall k, k <> pos -> wlist i3wm' !! k = wlist i3wm !! k.
Proof.
  unfold on_urgent_workspace.
  destruct (on_urgent_workspace_loop _ _ _) as [[[t [pos w]]|]|] eqn:Hl;
    try discriminate.
  apply on_urgent_workspace_loop_found in Hl as [Hpos|]; [|discriminate].
  intros [= <- _]. simpl.
  repeat split; try now rewrite (fmap_insert_same _ _ pos w).
  exists pos. intros k Hk. now apply list_lookup_insert_ne.
Qed.

Lemma on_urgent_workspace_keeps_list_witness :
  on_urgent_workspace move_i3wm (Fetched became_urgent)
  = Done (with_wlist move_i3wm
            [sample_workspace "2" false false "LVDS1";
             sample_workspace "1" false true "LVDS1"])
         [Call 105 (sample_workspace "1" false true "LVDS1") 15]
  /\ name <$> [sample_workspace "2" false false "LVDS1";
               sample_workspace "1" false true "LVDS1"]
     = name <$> wlist move_i3wm.
Proof.
  split; [reflexivity|].
  exact (proj1 (on_urgent_workspace_keeps_list move_i3wm _
                  (Fetched became_urgent) _ eq_refl)).
Defined.

Lemma on_empty_workspace_loop_pos
    (replies : list i3ipcWorkspaceReply) (witem : list i3workspace)
    (p : nat) vars (pos : nat) (w : i3workspace) :
  on_empty_workspace_loop replies witem p vars = Some (pos, w) ->
  (exists k, witem !! k = Some w /\ pos = (p + k)%nat)
  \/ vars = Some (pos, w).
Proof.
  revert p vars. induction witem as [|v next IH]; intros p vars; simpl.
  - now right.
  - destruct (g_slist_find_custom replies (name v) workspace_reply_str_cmp).
    + intros [(k & Hk & ->)|[= -> ->]]%IH; left.
      * exists (S k). split; [assumption|lia].
      * exists O. split; [reflexivity|lia].
    + intros [= <- <-]. left. exists O. split; [reflexivity|lia].
Qed.

Lemma on_move_workspace_loop_found
    (ours : list i3workspace) (witem : list i3ipcWorkspaceReply)
    vars (t : i3ipcWorkspaceReply) (pos : nat) (w : i3workspace) :
  on_move_workspace_loop ours witem vars = Exit (Some (t, (pos, w))) ->
  ours !! pos = Some w \/ vars = Some (t, (pos, w)).
Proof.
  revert vars. induction witem as [|wtheir next IH]; intros vars; simpl.
  - intros [= ->]. now right.
  - destruct (g_slist_find_custom ours (reply_name wtheir) workspace_str_cmp)
      as [[p wour]|] eqn:Hf; [|discriminate].
    apply g_slist_find_custom_Some in Hf as (Hp & _).
    destruct (negb _).
    + intros [= -> -> ->]. now left.
    + intros [H|[= -> -> ->]]%IH; now left.
Qed.

(** What the empty handler does whenever it ends: it removes a workspace
    that was in the list and invokes the destroyed callback on it. *)
Lemma on_empty_workspace_Done
    (i3wm i3wm' : i3windowManager) (r : fetched) calls :
  on_empty_workspace i3wm r = Done i3wm' calls ->
  exists pos w,
    wlist i3wm !! pos = Some w
    /\ i3wm' = with_wlist i3wm (delete pos (wlist i3wm))
    /\ calls = invoke_callback (on_workspace_destroyed i3wm) w.
Proof.
  unfold on_empty_workspace.
  destruct (on_empty_workspace_loop _ _ _ _) as [[pos w]|] eqn:Hl;
    [|discriminate].
  apply on_empty_workspace_loop_pos in Hl as [(k & Hk & ->)|];
    [|discriminate].
  intros [= <- <-]. exists k, w. now repeat split.
Qed.

Lemma on_init_workspace_Done
    (i3wm i3wm' : i3windowManager) (r : fetched) calls :
  on_init_workspace i3wm r = Done i3wm' calls ->
  exists t,
    t ∈ fst (i3ipc_connection_get_workspaces r)
    /\ i3wm' = with_wlist i3wm
                 (g_slist_insert_sorted (wlist i3wm) (create_workspace t)
                    i3wm_workspace_cmp)
    /\ calls = invoke_callback (on_workspace_created i3wm)
                 (create_workspace t).
Proof.
  unfold on_init_workspace.
  destruct (on_init_workspace_loop _ _ _) as [t|] eqn:Hl; [|discriminate].
  apply on_init_workspace_loop_elem in Hl as [Ht|]; [|discriminate].
  intros [= <- <-]. now exists t.
Qed.

(** X17: whenever they end, the init handler has made the list one workspace
    longer, the empty handler one workspace shorter, and the move and the
    rename handler have left its length as it was. *)
Theorem handlers_length
    (i3wm i3wm' : i3windowManager) (r r2 : fetched) calls :
  (on_init_workspace i3wm r = Done i3wm' calls ->
   length (wlist i3wm') = S (length (wlist i3wm)))
  /\ (on_empty_workspace i3wm r = Done i3wm' calls ->
      S (length (wlist i3wm')) = length (wlist i3wm))
  /\ (on_move_workspace i3wm r = Done i3wm' calls ->
      length (wlist i3wm') = length (wlist i3wm))
  /\ (on_rename_workspace i3wm r r2 = Done i3wm' calls ->
      length (wlist i3wm') = length (wlist i3wm)).
Proof.
  assert (Hins : forall l w,
            length (g_slist_insert_sorted l w i3wm_workspace_cmp)
            = S (length l)).
  { intros l w.
    now rewrite (g_slist_insert_sorted_Permutation i3wm_workspace_cmp). }
  assert (Hdel : forall (l : list i3workspace) pos w,
            l !! pos = Some w -> S (length (delete pos l)) = length l).
  { intros l pos w Hpos. rewrite length_delete by eauto.
    apply lookup_lt_Some in Hpos. lia. }
  repeat split.
  - intros (t & _ & -> & _)%on_init_workspace_Done. apply Hins.
  - intros (pos & w & Hpos & -> & _)%on_empty_workspace_Done.
    now apply (Hdel _ pos w).
  - unfold on_move_workspace.
    destruct (on_move_workspace_loop _ _ _) as [[[t [pos w]]|]|] eqn:Hl;
      try discriminate.
    apply on_move_workspace_loop_found in Hl as [Hpos|]; [|discriminate].
    intros [= <- _]. simpl. rewrite Hins. now apply (Hdel _ pos w).
  - unfold on_rename_workspace.
    destruct (on_init_workspace i3wm r) as [i3wm1 calls1|] eqn:H1;
      [|discriminate].
    destruct (on_empty_workspace i3wm1 r2) as [i3wm2 calls2|] eqn:H2;
      [|discriminate].
    intros [= <- _].
    apply on_init_workspace_Done in H1 as (t & _ & -> & _).
    apply on_empty_workspace_Done in H2 as (pos & w & Hpos & -> & _).
    simpl in *. apply (Hdel _ pos w) in Hpos. rewrite Hins in Hpos. lia.
Qed.

Lemma handlers_length_witness :
  on_init_workspace move_i3wm (Fetched appeared)
  = Done (with_wlist move_i3wm
            [sample_workspace "3" false false "LVDS1";
             sample_workspace "2" false false "LVDS1";
             sample_workspace "1" false false "LVDS1"])
         [Call 101 (sample_workspace "3" false false "LVDS1") 11]
  /\ length [sample_workspace "3" false false "LVDS1";
             sample_workspace "2" false false "LVDS1";
             sample_workspace "1" false false "LVDS1"]
     = S (length (wlist move_i3wm)).
Proof.
  split; [reflexivity|].
  exact (proj1 (handlers_length move_i3wm _ (Fetched appeared) (Fetched []) _)
           eq_refl).
Defined.

(** X18: a rename event that ends has invoked the created callback on a
    workspace made from the first snapshot and then the destroyed callback on
    a workspace it removed; the list it leaves, with the removed workspace
    put back, holds what the list it met holds with the new workspace
    added. *)
Theorem on_rename_workspace_Done
    (i3wm i3wm' : i3windowManager) (r1 r2 : fetched) calls :
  on_rename_workspace i3wm r1 r2 = Done i3wm' calls ->
  exists t wold,
    t ∈ fst (i3ipc_connection_get_workspaces r1)
    /\ calls = invoke_callback (on_workspace_created i3wm) (create_workspace t)
               ++ invoke_callback (on_workspace_destroyed i3wm) wold
    /\ wold :: wlist i3wm' ≡ₚ create_workspace t :: wlist i3wm.
Proof.
  unfold on_rename_workspace.
  destruct (on_init_workspace i3wm r1) as [i3wm1 calls1|] eqn:H1;
    [|discriminate].
  destruct (on_empty_workspace i3wm1 r2) as [i3wm2 calls2|] eqn:H2;
    [|discriminate].
  intros [= <- <-].
  apply on_init_workspace_Done in H1 as (t & Ht & -> & ->).
  apply on_empty_workspace_Done in H2 as (pos & w & Hpos & -> & ->).
  exists t, w. split; [assumption|]. split; [reflexivity|]. simpl in *.
  rewrite <- (delete_Permutation _ pos w Hpos).
  apply g_slist_insert_sorted_Permutation.
Qed.

Lemma on_rename_workspace_Done_witness :
  on_rename_workspace move_i3wm (Fetched renamed) (Fetched renamed)
  = Done (with_wlist move_i3wm
            [sample_workspace "web" false false "LVDS1";
             sample_workspace "1" false false "LVDS1"])
         [Call 101 (sample_workspace "web" false false "LVDS1") 11;
          Call 102 (sample_workspace "2" false false "LVDS1") 12]
  /\ exists t wold,
       t ∈ renamed
       /\ [Call 101 (sample_workspace "web" false false "LVDS1") 11;
           Call 102 (sample_workspace "2" false false "LVDS1") 12]
          = invoke_callback (on_workspace_created move_i3wm)
              (create_workspace t)
            ++ invoke_callback (on_workspace_destroyed move_i3wm) wold
       /\ wold :: [sample_workspace "web" false false "LVDS1";
                   sample_workspace "1" false false "LVDS1"]
          ≡ₚ create_workspace t :: wlist move_i3wm.
Proof.
  split; [reflexivity|].
  exact (on_rename_workspace_Done move_i3wm _ (Fetched renamed)
           (Fetched renamed) _ eq_refl).
Defined.

(** ** The dispatch of the events *)

Lemma strncmp_prefix (p rest : string) :
  strncmp (String.append p rest) p (String.length p) = 0.
Proof.
  induction p as [|c p IH]; [now destruct rest|].
  change (strncmp (String c (String.append p rest)) (String c p)
            (S (String.length p)) = 0).
  cbn [strncmp]. now rewrite Z.ltb_irrefl.
Qed.

Lemma strncmp_prefix_inv (a p : string) :
  strncmp a p (String.length p) = 0 -> exists rest, a = String.append p rest.
Proof.
  revert a. induction p as [|c p IH]; intros a.
  - intros _. now exists a.
  - cbn [String.length]. destruct a as [|d a]; cbn [strncmp];
      [discriminate|].
    destruct (Z.ltb_spec (byte_val d) (byte_val c)); [discriminate|].
    destruct (Z.ltb_spec (byte_val c) (byte_val d)); [discriminate|].
    intros [rest ->]%IH. exists rest.
    assert (d = c) as -> by (apply byte_val_inj; lia). reflexivity.
Qed.

Lemma strncmp_whole_inv (a p : string) :
  strncmp a p (S (String.length p)) = 0 -> a = p.
Proof.
  revert a. induction p as [|c p IH]; intros a.
  - cbn [String.length]. now destruct a.
  - cbn [String.length]. destruct a as [|d a]; cbn [strncmp];
      [discriminate|].
    destruct (Z.ltb_spec (byte_val d) (byte_val c)); [discriminate|].
    destruct (Z.ltb_spec (byte_val c) (byte_val d)); [discriminate|].
    intros ->%IH. assert (d = c) as -> by (apply byte_val_inj; lia).
    reflexivity.
Qed.

Ltac strncmp_prefix_match p rest :=
  let E := fresh "E" in
  pose proof (strncmp_prefix p rest) as E;
  cbn [String.length] in E; rewrite E; clear E.

(** X19: the change of an event is matched on its first bytes: anything
    that begins with "focus", "empty", "urgent", "rename" or "move" runs the
    handler of that word, while "init" must be the whole change. *)
Theorem on_workspace_event_dispatch
    (i3wm : i3windowManager) (rest current old : string) (r1 r2 : fetched) :
  on_workspace_event i3wm (String.append "focus" rest) current old r1 r2
  = on_focus_workspace i3wm current old
  /\ on_workspace_event i3wm "init" current old r1 r2
     = on_init_workspace i3wm r1
  /\ on_workspace_event i3wm (String.append "empty" rest) current old r1 r2
     = on_empty_workspace i3wm r1
  /\ on_workspace_event i3wm (String.append "urgent" rest) current old r1 r2
     = on_urgent_workspace i3wm r1
  /\ on_workspace_event i3wm (String.append "rename" rest) current old r1 r2
     = on_rename_workspace i3wm r1 r2
  /\ on_workspace_event i3wm (String.append "move" rest) current old r1 r2
     = on_move_workspace i3wm r1.
Proof.
  unfold on_workspace_event.
  split; [|split; [reflexivity|split; [|split; [|split]]]].
  - now strncmp_prefix_match "focus" rest.
  - change (strncmp (String.append "empty" rest) "focus" 5) with (-1).
    change (strncmp (String.append "empty" rest) "init" 5) with (-1).
    now strncmp_prefix_match "empty" rest.
  - change (strncmp (String.append "urgent" rest) "focus" 5) with 1.
    change (strncmp (String.append "urgent" rest) "init" 5) with 1.
    change (strncmp (String.append "urgent" rest) "empty" 5) with 1.
    now strncmp_prefix_match "urgent" rest.
  - change (strncmp (String.append "rename" rest) "focus" 5) with 1.
    change (strncmp (String.append "rename" rest) "init" 5) with 1.
    change (strncmp (String.append "rename" rest) "empty" 5) with 1.
    change (strncmp (String.append "rename" rest) "urgent" 6) with (-1).
    now strncmp_prefix_match "rename" rest.
  - change (strncmp (String.append "move" rest) "focus" 5) with 1.
    change (strncmp (String.append "move" rest) "init" 5) with 1.
    change (strncmp (String.append "move" rest) "empty" 5) with 1.
    change (strncmp (String.append "move" rest) "urgent" 6) with (-1).
    change (strncmp (String.append "move" rest) "rename" 6) with (-1).
    now strncmp_prefix_match "move" rest.
Qed.

(** X20: an event whose change begins with none of the words "focus",
    "empty", "urgent", "rename" and "move" and is not "init" is ignored: the
    delegate stays as it is, no callback is called and nothing is undefined,
    nor is anything fetched. *)
Theorem on_workspace_event_unknown
    (i3wm : i3windowManager) (change current old : string) (r1 r2 : fetched) :
  (forall rest, change <> String.append "focus" rest) ->
  change <> "init" ->
  (forall rest, change <> String.append "empty" rest) ->
  (forall rest, change <> String.append "urgent" rest) ->
  (forall rest, change <> String.append "rename" rest) ->
  (forall rest, change <> String.append "move" rest) ->
  on_workspace_event i3wm change current old r1 r2 = Done i3wm [].
Proof.
  intros Hf Hi He Hu Hr Hm. unfold on_workspace_event.
  destruct (Z.eqb_spec (strncmp change "focus" 5) 0)
    as [[rest E]%(strncmp_prefix_inv change "focus")|_];
    [now apply Hf in E|].
  destruct (Z.eqb_spec (strncmp change "init" 5) 0)
    as [E%(strncmp_whole_inv change "init")|_]; [contradiction|].
  destruct (Z.eqb_spec (strncmp change "empty" 5) 0)
    as [[rest E]%(strncmp_prefix_inv change "empty")|_];
    [now apply He in E|].
  destruct (Z.eqb_spec (strncmp change "urgent" 6) 0)
    as [[rest E]%(strncmp_prefix_inv change "urgent")|_];
    [now apply Hu in E|].
  destruct (Z.eqb_spec (strncmp change "rename" 6) 0)
    as [[rest E]%(strncmp_prefix_inv change "rename")|_];
    [now apply Hr in E|].
  destruct (Z.eqb_spec (strncmp change "move" 4) 0)
    as [[rest E]%(strncmp_prefix_inv change "move")|_];
    [now apply Hm in E|].
  reflexivity.
Qed.

Lemma on_workspace_event_unknown_witness :
  on_workspace_event move_i3wm "reload" "" ""
    (FetchFailed sample_error) (FetchFailed sample_error)
  = Done move_i3wm [].
Proof.
  apply on_workspace_event_unknown;
    try (intros rest H; cbv [String.append] in H; discriminate H);
    discriminate.
Defined.

(** ** Going to a workspace *)

(** X21: [i3wm_goto_workspace] never writes past its command buffer, the
    command it sends is "workspace " followed by the name of the workspace,
    and it sets an error exactly when the send fails, the error of the
    send. *)
Theorem i3wm_goto_workspace_result
    (i3wm : i3windowManager) (workspace : i3workspace)
    (connection : string -> sent) :
  i3wm_goto_workspace i3wm workspace connection
  = Some (String.append "workspace " (name workspace),
          match connection (String.append "workspace " (name workspace)) with
          | SendFailed e => Some e
          | Replied _ => None
          end).
Proof.
  unfold i3wm_goto_workspace, sprintf_workspace.
  assert (Hlen : String.length (String.append "workspace " (name workspace))
                 = (10 + String.length (name workspace))%nat) by reflexivity.
  rewrite Hlen.
  destruct (Nat.leb_spec (10 + String.length (name workspace) + 1)
              (13 + String.length (name workspace))) as [_|Hgt]; [|lia].
  now destruct (connection _).
Qed.

(** ** Callbacks that get their own data *)

(** X22: the created, the destroyed and the urgent callback are called with
    the data they were set with: after one of them is set, each call the
    init, the empty and the urgent handler make is a call of that function
    with that data. *)
Theorem own_data_created_destroyed_urgent
    (i3wm : i3windowManager) (f d : gpointer) (r : fetched) :
  f <> NULL ->
  (forall i3wm' calls,
     on_init_workspace (i3wm_set_on_workspace_created i3wm f d) r
     = Done i3wm' calls -> exists w, calls = [Call f w d])
  /\ (forall i3wm' calls,
        on_empty_workspace (i3wm_set_on_workspace_destroyed i3wm f d) r
        = Done i3wm' calls -> exists w, calls = [Call f w d])
  /\ (forall i3wm' calls,
        on_urgent_workspace (i3wm_set_on_workspace_urgent i3wm f d) r
        = Done i3wm' calls -> exists w, calls = [Call f w d]).
Proof.
  intros Hf. repeat split; intros i3wm' calls H.
  - apply on_init_workspace_Done in H as (t & _ & _ & ->).
    exists (create_workspace t). now apply invoke_callback_set.
  - apply on_empty_workspace_Done in H as (pos & w & _ & _ & ->).
    exists w. now apply invoke_callback_set.
  - destruct (on_urgent_workspace_invokes
                (i3wm_set_on_workspace_urgent i3wm f d) r)
      as [E|(l & w & E)]; rewrite E in H; [discriminate|].
    injection H as _ <-. exists w. now apply invoke_callback_set.
Qed.

Lemma own_data_created_destroyed_urgent_witness :
  (201 : gpointer) <> NULL
  /\ on_init_workspace (i3wm_set_on_workspace_created move_i3wm 201 21)
       (Fetched appeared)
     = Done (i3wm_set_on_workspace_created
               (with_wlist move_i3wm
                  [sample_workspace "3" false false "LVDS1";
                   sample_workspace "2" false false "LVDS1";
                   sample_workspace "1" false false "LVDS1"]) 201 21)
            [Call 201 (sample_workspace "3" false false "LVDS1") 21]
  /\ exists w,
       [Call 201 (sample_workspace "3" false false "LVDS1") 21]
       = [Call 201 w 21].
Proof.
  assert (Hf : (201 : gpointer) <> NULL) by discriminate.
  split; [exact Hf|]. split; [reflexivity|].
  exact (proj1 (own_data_created_destroyed_urgent move_i3wm 201 21
                  (Fetched appeared) Hf) _ _ eq_refl).
Defined.

(** X23: the shutdown callback, once set, is called by the shutdown proxy
    with its own data, and it stays set through every workspace event. *)
Theorem on_ipc_shutdown_proxy_set
    (i3wm i3wm' : i3windowManager) (f d : gpointer)
    (change current old : string) (r1 r2 : fetched) calls :
  f <> NULL ->
  on_workspace_event (i3wm_set_on_ipc_shutdown i3wm f d)
    change current old r1 r2 = Done i3wm' calls ->
  on_ipc_shutdown_proxy (i3wm_set_on_ipc_shutdown i3wm f d)
  = [CallShutdown f d]
  /\ on_ipc_shutdown_proxy i3wm' = [CallShutdown f d].
Proof.
  intros Hf [l ->]%on_workspace_event_with_wlist.
  unfold on_ipc_shutdown_proxy. simpl.
  now destruct (Z.eqb_spec f NULL).
Qed.

Lemma on_ipc_shutdown_proxy_set_witness :
  (301 : gpointer) <> NULL
  /\ on_workspace_event (i3wm_set_on_ipc_shutdown move_i3wm 301 31)
       "empty" "" "" (Fetched gone) (Fetched [])
     = Done (i3wm_set_on_ipc_shutdown
               (with_wlist move_i3wm
                  [sample_workspace "1" false false "LVDS1"]) 301 31)
            [Call 102 (sample_workspace "2" false false "LVDS1") 12]
  /\ on_ipc_shutdown_proxy
       (i3wm_set_on_ipc_shutdown
          (with_wlist move_i3wm [sample_workspace "1" false false "LVDS1"])
          301 31)
     = [CallShutdown 301 31].
Proof.
  assert (Hf : (301 : gpointer) <> NULL) by discriminate.
  split; [exact Hf|]. split; [reflexivity|].
  exact (proj2 (on_ipc_shutdown_proxy_set move_i3wm _ 301 31 "empty" "" ""
                  (Fetched gone) (Fetched []) _ Hf eq_refl)).
Defined.

(** ** A snapshot with a name the list does not have *)

Lemma loops_unknown_name
    (ours : list i3workspace) (before after : list i3ipcWorkspaceReply)
    (t : i3ipcWorkspaceReply) vars :
  Forall (fun v => exists p w,
            g_slist_find_custom ours (reply_name v) workspace_str_cmp
            = Some (p, w)
            /\ urgent w = reply_urgent v /\ output w = reply_output v)
         before ->
  g_slist_find_custom ours (reply_name t) workspace_str_cmp = None ->
  on_urgent_workspace_loop ours (before ++ t :: after) vars = NullData
  /\ on_move_workspace_loop ours (before ++ t :: after) vars = NullData.
Proof.
  intros Hb Ht. revert vars.
  induction Hb as [|v before (p & w & Hv & Hu & Ho) _ IH]; intros vars; simpl.
  - now rewrite Ht.
  - rewrite Hv, Hu, Ho, eqb_reflx, g_strcmp0_same. apply IH.
Qed.

(** X24: when the urgent or the move handler meets, before any reply whose
    workspace differs, a reply whose name the lookup does not find in the
    list, it reads the data of a NULL node: undefined behaviour, with no
    change made and no callback called. *)
Theorem unknown_name_undefined
    (i3wm : i3windowManager) (before after : list i3ipcWorkspaceReply)
    (t : i3ipcWorkspaceReply) :
  Forall (fun v => exists p w,
            g_slist_find_custom (wlist i3wm) (reply_name v) workspace_str_cmp
            = Some (p, w)
            /\ urgent w = reply_urgent v /\ output w = reply_output v)
         before ->
  g_slist_find_custom (wlist i3wm) (reply_name t) workspace_str_cmp = None ->
  on_urgent_workspace i3wm (Fetched (before ++ t :: after)) = Undefined
  /\ on_move_workspace i3wm (Fetched (before ++ t :: after)) = Undefined.
Proof.
  intros Hb Ht.
  destruct (loops_unknown_name (wlist i3wm) before after t None Hb Ht)
    as [Hu Hm].
  unfold on_urgent_workspace, on_move_workspace. simpl.
  now rewrite Hu, Hm.
Qed.

Lemma unknown_name_undefined_witness :
  g_slist_find_custom (wlist move_i3wm) "3" workspace_str_cmp = None
  /\ on_urgent_workspace move_i3wm (Fetched appeared) = Undefined
  /\ on_move_workspace move_i3wm (Fetched appeared) = Undefined.
Proof.
  split; [reflexivity|].
  refine (unknown_name_undefined move_i3wm
            [sample_reply "1" false false "LVDS1";
             sample_reply "2" false false "LVDS1"] []
            (sample_reply "3" false false "LVDS1") _ eq_refl).
  repeat constructor.
  - now exists 1%nat, (sample_workspace "1" false false "LVDS1").
  - now exists O, (sample_workspace "2" false false "LVDS1").
Defined.
